(** * reescrita: the SEO rewrite service and its persistence adapter

    A shallow embedding of the two source files of the repository:

    - the OpenAI service ([rewriteContentWithSEO] and its result type
      [SEORewriteResult]), in module [OpenAI];
    - [server/storage.ts] ([DatabaseStorage]), in module [Storage].

    The JavaScript values the code manipulates are embedded in module [JS]:
    strings are sequences of UTF-16 code units, numbers that the code prints
    with [toFixed] are IEEE doubles ([PrimFloat]), array lengths and the
    integer scores computed from them are in [Z]. *)

From Stdlib Require Import String Ascii ZArith NArith Bool Lia Floats QArith Qround List.
Import ListNotations.

Set Implicit Arguments.
Set Warnings "-register-all".

(* ================================================================= *)
(** * Part I: the JavaScript values the code works on *)

Module JS.

(** ** Strings *)

(** A JavaScript string is a sequence of 16-bit code units. *)
Definition codeunit := N.
Definition jsstring := list codeunit.

(** String literals of the source are written in this file as UTF-8 text;
    [js] turns one into its code units (UTF-8 to code points, then UTF-16). *)
Fixpoint utf8_points (bs : list N) : list N :=
  match bs with
  | [] => []
  | b1 :: t1 =>
      if (b1 <? 0x80)%N then b1 :: utf8_points t1
      else
        match t1 with
        | [] => []
        | b2 :: t2 =>
            if (b1 <? 0xE0)%N
            then ((b1 mod 0x20) * 0x40 + b2 mod 0x40)%N :: utf8_points t2
            else
              match t2 with
              | [] => []
              | b3 :: t3 =>
                  if (b1 <? 0xF0)%N
                  then ((b1 mod 0x10) * 0x1000 + (b2 mod 0x40) * 0x40
                        + b3 mod 0x40)%N :: utf8_points t3
                  else
                    match t3 with
                    | [] => []
                    | b4 :: t4 =>
                        ((b1 mod 0x08) * 0x40000 + (b2 mod 0x40) * 0x1000
                         + (b3 mod 0x40) * 0x40 + b4 mod 0x40)%N
                        :: utf8_points t4
                    end
              end
        end
  end.

Definition utf16_units (cp : N) : jsstring :=
  if (cp <? 0x10000)%N then [cp]
  else [(0xD800 + (cp - 0x10000) / 0x400)%N; (0xDC00 + (cp - 0x10000) mod 0x400)%N].

Definition js (s : string) : jsstring :=
  flat_map utf16_units (utf8_points (map N_of_ascii (list_ascii_of_string s))).

Arguments js s%_string : simpl never.

(** [s === t] on strings. *)
Fixpoint str_eqb (s t : jsstring) : bool :=
  match s, t with
  | [], [] => true
  | c :: s', d :: t' => (c =? d)%N && str_eqb s' t'
  | _, _ => false
  end.

(** [s.startsWith(p)], the step of [includes]. *)
Fixpoint startsWith (s p : jsstring) : bool :=
  match p, s with
  | [], _ => true
  | _ :: _, [] => false
  | d :: p', c :: s' => (c =? d)%N && startsWith s' p'
  end.

(** [s.includes(p)]. *)
Fixpoint includes (s p : jsstring) : bool :=
  startsWith s p ||
  match s with
  | [] => false
  | _ :: s' => includes s' p
  end.

(** [s.substring(0, n)], and [s.slice(0, n)] on strings and arrays alike,
    for a literal [n >= 0]: the first [n] elements. *)
Definition substring0 (n : nat) (s : jsstring) : jsstring := firstn n s.
Definition slice0 {A} (n : nat) (l : list A) : list A := firstn n l.

(** The code units the regular expression class [\s] matches: WhiteSpace and
    LineTerminator of ECMA-262. *)
Definition isWhiteSpace (c : codeunit) : bool :=
  ((0x09 <=? c) && (c <=? 0x0D) || (c =? 0x20) || (c =? 0xA0) || (c =? 0x1680)
   || (0x2000 <=? c) && (c <=? 0x200A) || (c =? 0x2028) || (c =? 0x2029)
   || (c =? 0x202F) || (c =? 0x205F) || (c =? 0x3000) || (c =? 0xFEFF))%N.

(** [s.split(/\s+/)]: the pieces between the maximal runs of white space.
    [cur] is the piece being read, reversed; [inws] says that the previous
    code unit was white space, so that a run is one separator.  The empty
    string gives one (empty) piece, and a string that starts or ends with
    white space gets an empty first or last piece, as in ECMA-262
    (String.prototype.split with a regular expression that does not match
    the empty string). *)
Fixpoint split_ws_from (cur : jsstring) (inws : bool) (s : jsstring) : list jsstring :=
  match s with
  | [] => [rev cur]
  | c :: s' =>
      if isWhiteSpace c
      then if inws then split_ws_from cur true s'
           else rev cur :: split_ws_from [] true s'
      else split_ws_from (c :: cur) false s'
  end.

Definition split_ws (s : jsstring) : list jsstring := split_ws_from [] false s.

(** ** Numbers *)

(** The double nearest to an integer (ties to even): the value of an integer
    literal, and of an array length used in arithmetic. *)
Definition Number_of_Z (z : Z) : float :=
  SF2Prim (binary_normalize prec emax z 0 false).

(** Decimal digits of a natural number, most significant first. *)
Fixpoint uint_units (d : Decimal.uint) : jsstring :=
  match d with
  | Decimal.Nil => []
  | Decimal.D0 d' => 48%N :: uint_units d'
  | Decimal.D1 d' => 49%N :: uint_units d'
  | Decimal.D2 d' => 50%N :: uint_units d'
  | Decimal.D3 d' => 51%N :: uint_units d'
  | Decimal.D4 d' => 52%N :: uint_units d'
  | Decimal.D5 d' => 53%N :: uint_units d'
  | Decimal.D6 d' => 54%N :: uint_units d'
  | Decimal.D7 d' => 55%N :: uint_units d'
  | Decimal.D8 d' => 56%N :: uint_units d'
  | Decimal.D9 d' => 57%N :: uint_units d'
  end.

Definition decimal (n : N) : jsstring := uint_units (N.to_uint n).

(** The integer [n] for which [n / 10 - m * 2^e] is closest to zero, the
    larger one on a tie (step 10.a of Number.prototype.toFixed with one
    fraction digit): [floor (10 * m * 2^e + 1/2)], computed exactly. *)
Definition nearest_tenths (m : positive) (e : Z) : Z :=
  if (0 <=? e)%Z then 10 * Z.pos m * 2 ^ e
  else (20 * Z.pos m + 2 ^ (- e)) / 2 ^ (1 - e).

(** [x.toFixed(1)].  For a finite [x] the digits of [n] with a point before
    the last one, a minus sign first when [x < 0].  (From 10^21 on toFixed
    prints the shortest round-trip digits in exponent notation instead; the
    one number this program formats, a keyword density, is at most a hundred
    times the length of a string, and that branch is left as the plain
    digits.) *)
Definition toFixed1 (x : float) : jsstring :=
  match Prim2SF x with
  | S754_nan => js "NaN"
  | S754_infinity s => if s then js "-Infinity" else js "Infinity"
  | S754_zero _ => js "0.0"
  | S754_finite s m e =>
      let n := Z.to_N (nearest_tenths m e) in
      (if s then js "-" else []) ++ decimal (n / 10) ++ js "." ++ decimal (n mod 10)
  end.

(** The double nearest to [(-1)^neg * d * 10^e] (ties to even): the value
    JSON.parse gives a number literal.  For a negative exponent the quotient
    is taken with 64 or more significant bits and a sticky last bit, which
    the final rounding to 53 bits cannot tell from the exact value. *)
Definition Number_of_decimal (neg : bool) (d : N) (e : Z) : float :=
  let sgn := if neg then (-1)%Z else 1%Z in
  if (d =? 0)%N then (if neg then (-0)%float else 0%float)
  else if (0 <=? e)%Z
  then SF2Prim (binary_normalize prec emax (sgn * Z.of_N d * 10 ^ e) 0 false)
  else
    let den := (10 ^ (- e))%Z in
    let k := Z.max 0 (64 + Z.log2 den - Z.log2 (Z.of_N d)) in
    let num := (Z.of_N d * 2 ^ k)%Z in
    let q := (num / den)%Z in
    let sticky := if (num mod den =? 0)%Z then 0%Z else 1%Z in
    SF2Prim (binary_normalize prec emax (sgn * (2 * q + sticky)) (- k - 1) false).

(** ** Values *)

(** The values JSON.parse produces, and [undefined]. An object is the list
    of its members in source order; a repeated key keeps its last value. *)
Inductive JSValue :=
| JUndefined
| JNull
| JBool (b : bool)
| JNumber (x : float)
| JString (s : jsstring)
| JArray (elems : list JSValue)
| JObject (members : list (jsstring * JSValue)).

(** ToBoolean: what [!v], [v || d] and [v ? a : b] test. *)
Definition truthy (v : JSValue) : bool :=
  match v with
  | JUndefined | JNull => false
  | JBool b => b
  | JNumber x => negb (x =? 0)%float && (x =? x)%float
  | JString s => match s with [] => false | _ :: _ => true end
  | JArray _ | JObject _ => true
  end.

(** [a || b]. *)
Definition or_else (a b : JSValue) : JSValue := if truthy a then a else b.

(** [v === undefined || v === null], the test of [v?.p]. *)
Definition nullish (v : JSValue) : bool :=
  match v with
  | JUndefined | JNull => true
  | _ => false
  end.

Fixpoint lookup_last (k : jsstring) (ms : list (jsstring * JSValue)) : option JSValue :=
  match ms with
  | [] => None
  | (k', v) :: ms' =>
      match lookup_last k ms' with
      | Some v' => Some v'
      | None => if str_eqb k' k then Some v else None
      end
  end.

(** [v.k] for a [v] that is neither [undefined] nor [null], and a name [k]
    that is no index, not [length] and no method of a prototype (every name
    the program reads is of that kind): the member of an object, and
    [undefined] on anything else. *)
Definition member (v : JSValue) (k : jsstring) : JSValue :=
  match v with
  | JObject ms => match lookup_last k ms with Some x => x | None => JUndefined end
  | _ => JUndefined
  end.

(** ** JSON.parse *)

(** *** Tokens *)

Inductive Token :=
| TLBrace | TRBrace | TLBracket | TRBracket | TColon | TComma
| TValue (v : JSValue).

(** The lexer reads one code unit at a time. A word is a maximal run of the
    code units literal names and numbers are made of; it is checked against
    the grammar when it ends. *)
Inductive LexMode :=
| LxIdle
| LxWord (acc : jsstring)
| LxString (acc : jsstring)
| LxEscape (acc : jsstring)
| LxUnicode (acc : jsstring) (hex : list N).

Definition isDigit (c : codeunit) : bool := ((48 <=? c) && (c <=? 57))%N.

Definition isWordUnit (c : codeunit) : bool :=
  (isDigit c || (97 <=? c) && (c <=? 122) || (c =? 69) || (c =? 43) || (c =? 45)
   || (c =? 46))%N.

Definition hexValue (c : codeunit) : option N :=
  if isDigit c then Some (c - 48)%N
  else if ((97 <=? c) && (c <=? 102))%N then Some (c - 87)%N
  else if ((65 <=? c) && (c <=? 70))%N then Some (c - 55)%N
  else None.

Fixpoint span_digits (s : jsstring) : jsstring * jsstring :=
  match s with
  | c :: s' =>
      if isDigit c then let (ds, r) := span_digits s' in (c :: ds, r) else ([], s)
  | [] => ([], [])
  end.

Definition digits_value (ds : jsstring) : N :=
  fold_left (fun acc c => (10 * acc + (c - 48))%N) ds 0%N.

(** The number grammar of JSON: an optional minus sign; an integer part that
    is 0 or starts with a digit from 1 to 9; optionally a point and one or
    more digits; optionally e or E, an optional sign and one or more digits. *)
Definition parse_number (w : jsstring) : option float :=
  let (neg, s1) := match w with
                   | 45%N :: r => (true, r)
                   | _ => (false, w)
                   end in
  let (ip, s2) := span_digits s1 in
  match ip with
  | [] => None
  | 48%N :: _ :: _ => None
  | _ =>
      let frac := match s2 with
                  | 46%N :: r =>
                      let (fp, r') := span_digits r in
                      match fp with [] => None | _ => Some (fp, r') end
                  | _ => Some ([], s2)
                  end in
      match frac with
      | None => None
      | Some (fp, s3) =>
          let expo := match s3 with
                      | [] => Some 0%Z
                      | c :: r =>
                          if ((c =? 101) || (c =? 69))%N then
                            let (eneg, r1) := match r with
                                              | 45%N :: r' => (true, r')
                                              | 43%N :: r' => (false, r')
                                              | _ => (false, r)
                                              end in
                            let (ed, r2) := span_digits r1 in
                            match ed, r2 with
                            | _ :: _, [] =>
                                let e := Z.of_N (digits_value ed) in
                                Some (if eneg then (- e)%Z else e)
                            | _, _ => None
                            end
                          else None
                      end in
          match expo with
          | None => None
          | Some e =>
              Some (Number_of_decimal neg (digits_value (ip ++ fp))
                      (e - Z.of_nat (length fp)))
          end
      end
  end.

Definition word_value (w : jsstring) : option JSValue :=
  if str_eqb w (js "true") then Some (JBool true)
  else if str_eqb w (js "false") then Some (JBool false)
  else if str_eqb w (js "null") then Some JNull
  else option_map JNumber (parse_number w).

(** What the lexer does on a code unit when no token is being read. *)
Definition lex_idle (c : codeunit) : option (list Token * LexMode) :=
  if ((c =? 0x20) || (c =? 0x09) || (c =? 0x0A) || (c =? 0x0D))%N then Some ([], LxIdle)
  else if (c =? 123)%N then Some ([TLBrace], LxIdle)
  else if (c =? 125)%N then Some ([TRBrace], LxIdle)
  else if (c =? 91)%N then Some ([TLBracket], LxIdle)
  else if (c =? 93)%N then Some ([TRBracket], LxIdle)
  else if (c =? 58)%N then Some ([TColon], LxIdle)
  else if (c =? 44)%N then Some ([TComma], LxIdle)
  else if (c =? 34)%N then Some ([], LxString [])
  else if isWordUnit c then Some ([], LxWord [c])
  else None.

Definition lex_step (m : LexMode) (c : codeunit) : option (list Token * LexMode) :=
  match m with
  | LxIdle => lex_idle c
  | LxWord acc =>
      if isWordUnit c then Some ([], LxWord (c :: acc))
      else
        match word_value (rev acc), lex_idle c with
        | Some v, Some (ts, m') => Some (TValue v :: ts, m')
        | _, _ => None
        end
  | LxString acc =>
      if (c =? 34)%N then Some ([TValue (JString (rev acc))], LxIdle)
      else if (c =? 92)%N then Some ([], LxEscape acc)
      else if (c <? 0x20)%N then None
      else Some ([], LxString (c :: acc))
  | LxEscape acc =>
      if ((c =? 34) || (c =? 92) || (c =? 47))%N then Some ([], LxString (c :: acc))
      else if (c =? 98)%N then Some ([], LxString (8%N :: acc))
      else if (c =? 102)%N then Some ([], LxString (12%N :: acc))
      else if (c =? 110)%N then Some ([], LxString (10%N :: acc))
      else if (c =? 114)%N then Some ([], LxString (13%N :: acc))
      else if (c =? 116)%N then Some ([], LxString (9%N :: acc))
      else if (c =? 117)%N then Some ([], LxUnicode acc [])
      else None
  | LxUnicode acc hex =>
      match hexValue c with
      | None => None
      | Some h =>
          match hex with
          | [h1; h2; h3] =>
              Some ([], LxString ((h1 * 4096 + h2 * 256 + h3 * 16 + h)%N :: acc))
          | _ => Some ([], LxUnicode acc (hex ++ [h]))
          end
      end
  end.

Fixpoint lex (m : LexMode) (s : jsstring) : option (list Token) :=
  match s with
  | [] =>
      match m with
      | LxIdle => Some []
      | LxWord acc => option_map (fun v => [TValue v]) (word_value (rev acc))
      | _ => None
      end
  | c :: s' =>
      match lex_step m c with
      | None => None
      | Some (ts, m') => option_map (app ts) (lex m' s')
      end
  end.

(** *** Grammar *)

(** The parser keeps the containers that are still open on a stack, each
    with what it holds so far (in reverse), and knows what may come next. *)
Inductive Frame :=
| FArray (elems : list JSValue)
| FObject (members : list (jsstring * JSValue))
| FMember (members : list (jsstring * JSValue)) (key : jsstring).

Inductive Expect :=
| ExpValue
| ExpValueOrClose
| ExpKeyOrClose
| ExpKey
| ExpColon (key : jsstring)
| ExpCommaOrClose
| ExpEnd (v : JSValue).

(** A value is complete: it is the text's value, an element of the array on
    top of the stack, or the value of the member whose key was read. *)
Definition complete (v : JSValue) (st : list Frame) : option (Expect * list Frame) :=
  match st with
  | [] => Some (ExpEnd v, [])
  | FArray es :: st' => Some (ExpCommaOrClose, FArray (v :: es) :: st')
  | FMember ms k :: st' => Some (ExpCommaOrClose, FObject ((k, v) :: ms) :: st')
  | FObject _ :: _ => None
  end.

Definition begin_value (t : Token) (st : list Frame) : option (Expect * list Frame) :=
  match t with
  | TValue v => complete v st
  | TLBracket => Some (ExpValueOrClose, FArray [] :: st)
  | TLBrace => Some (ExpKeyOrClose, FObject [] :: st)
  | _ => None
  end.

Definition close (t : Token) (st : list Frame) : option (Expect * list Frame) :=
  match t, st with
  | TRBracket, FArray es :: st' => complete (JArray (rev es)) st'
  | TRBrace, FObject ms :: st' => complete (JObject (rev ms)) st'
  | _, _ => None
  end.

Definition parse_step (x : Expect) (st : list Frame) (t : Token)
  : option (Expect * list Frame) :=
  match x with
  | ExpValue => begin_value t st
  | ExpValueOrClose =>
      match t with
      | TRBracket => close t st
      | _ => begin_value t st
      end
  | ExpKeyOrClose =>
      match t with
      | TValue (JString k) => Some (ExpColon k, st)
      | TRBrace => close t st
      | _ => None
      end
  | ExpKey =>
      match t with
      | TValue (JString k) => Some (ExpColon k, st)
      | _ => None
      end
  | ExpColon k =>
      match t, st with
      | TColon, FObject ms :: st' => Some (ExpValue, FMember ms k :: st')
      | _, _ => None
      end
  | ExpCommaOrClose =>
      match t, st with
      | TComma, FArray _ :: _ => Some (ExpValue, st)
      | TComma, FObject _ :: _ => Some (ExpKey, st)
      | TComma, _ => None
      | _, _ => close t st
      end
  | ExpEnd _ => None
  end.

Fixpoint parse_tokens (x : Expect) (st : list Frame) (ts : list Token) : option JSValue :=
  match ts with
  | [] =>
      match x with
      | ExpEnd v => Some v
      | _ => None
      end
  | t :: ts' =>
      match parse_step x st t with
      | None => None
      | Some (x', st') => parse_tokens x' st' ts'
      end
  end.

(** [JSON.parse(text)]: [None] when it throws its SyntaxError. *)
Definition JSON_parse (text : jsstring) : option JSValue :=
  match lex LxIdle text with
  | None => None
  | Some ts => parse_tokens ExpValue [] ts
  end.

(** JSON texts are written in this file with ' where the text has a double
    quote. *)
Definition json_text (s : string) : jsstring :=
  map (fun c => if (c =? 39)%N then 34%N else c) (js s).

End JS.

(* ================================================================= *)
(** * Part II: what the program takes from the JavaScript engine *)

(** Three things the code relies on are the engine's and are left open here:
    the Unicode case mapping behind [toLowerCase], the regular expression
    machine behind [new RegExp(source, 'g')] and [match], and the wording of
    a TypeError.  Every theorem below holds for every engine; the instance
    [fragmentEngine] is the one the examples run on. *)

Inductive TypeErrorSite :=
| ReadOf (base : JS.JSValue) (name : JS.jsstring)
| NotCallable (callee : JS.jsstring).

Class Engine := {
  (** [s.toLowerCase()] *)
  toLowerCase : JS.jsstring -> JS.jsstring;
  (** [(subject.match(new RegExp(source, 'g')) || []).length], or the
      message of the SyntaxError that [new RegExp] throws on [source] *)
  regexpMatches : JS.jsstring -> JS.jsstring -> JS.jsstring + nat;
  (** the message of the TypeError raised at a site *)
  typeErrorMessage : TypeErrorSite -> JS.jsstring
}.

Module Fragment.
Import JS.

(** Lower case of the Basic Latin and Latin-1 letters; other code units are
    kept, so this is [toLowerCase] on strings of those two blocks. *)
Definition lower (c : codeunit) : codeunit :=
  if ((65 <=? c) && (c <=? 90))%N then (c + 32)%N
  else if ((0xC0 <=? c) && (c <=? 0xDE) && negb (c =? 0xD7))%N then (c + 32)%N
  else c.

(** The syntax characters of a pattern: ^ $ \ . * + ? ( ) [ ] { } | *)
Definition isSyntaxCharacter (c : codeunit) : bool :=
  existsb (N.eqb c) [94; 36; 92; 46; 42; 43; 63; 40; 41; 91; 93; 123; 125; 124]%N.

(** The patterns covered: a sequence of code units that stand for
    themselves and of dots. *)
Inductive Atom :=
| Lit (c : codeunit)
| AnyChar.

Fixpoint compile (source : jsstring) : option (list Atom) :=
  match source with
  | [] => Some []
  | c :: r =>
      match compile r with
      | None => None
      | Some p =>
          if (c =? 46)%N then Some (AnyChar :: p)
          else if isSyntaxCharacter c then None
          else Some (Lit c :: p)
      end
  end.

(** A dot matches any code unit but a line terminator. *)
Definition atom_matches (a : Atom) (c : codeunit) : bool :=
  match a with
  | Lit d => (c =? d)%N
  | AnyChar => negb ((c =? 0x0A) || (c =? 0x0D) || (c =? 0x2028) || (c =? 0x2029))%N
  end.

Fixpoint matches_here (p : list Atom) (s : jsstring) : bool :=
  match p, s with
  | [], _ => true
  | _ :: _, [] => false
  | a :: p', c :: s' => atom_matches a c && matches_here p' s'
  end.

(** The matches of a global search, left to right and without overlap: after
    a match the search resumes at its end ([skip] code units further), and
    one code unit further after an empty match. *)
Fixpoint count_matches (p : list Atom) (skip : nat) (s : jsstring) : nat :=
  match s with
  | [] => match skip, p with
          | O, [] => 1
          | _, _ => 0
          end
  | _ :: s' =>
      match skip with
      | S k => count_matches p k s'
      | O => if matches_here p s
             then S (count_matches p (Nat.pred (List.length p)) s')
             else count_matches p 0 s'
      end
  end.

Definition regexpMatches (source subject : jsstring) : jsstring + nat :=
  match compile source with
  | Some p => inr (count_matches p 0 subject)
  | None =>
      inl (js "Invalid regular expression: /" ++ source ++ js "/g: pattern outside the fragment")
  end.

(** The wording of V8. *)
Definition typeErrorMessage (site : TypeErrorSite) : jsstring :=
  match site with
  | ReadOf JNull name =>
      js "Cannot read properties of null (reading '" ++ name ++ js "')"
  | ReadOf _ name =>
      js "Cannot read properties of undefined (reading '" ++ name ++ js "')"
  | NotCallable callee => callee ++ js " is not a function"
  end.

End Fragment.

(** The engine of the examples: exact on Basic Latin and Latin-1 text and on
    patterns made of ordinary code units and dots; any other pattern is
    reported as a SyntaxError, which the engine of Node.js does only for
    some of them. *)
#[export] Instance fragmentEngine : Engine := {|
  toLowerCase := map Fragment.lower;
  regexpMatches := Fragment.regexpMatches;
  typeErrorMessage := Fragment.typeErrorMessage
|}.

(* ================================================================= *)
(** * Part III: the OpenAI service, [rewriteContentWithSEO] *)

Module OpenAI.
Import JS.

(** ** Exceptions *)

(** What a [throw] carries: an instance of Error (TypeError and SyntaxError
    are) with its message, or some other value. *)
Inductive Thrown :=
| ErrorObject (message : jsstring)
| OtherValue.

Definition M (A : Type) : Type := (Thrown + A)%type.
Definition ret {A} (x : A) : M A := inr x.
Definition throw {A} (e : Thrown) : M A := inl e.
Definition bind {A B} (c : M A) (k : A -> M B) : M B :=
  match c with
  | inl e => inl e
  | inr x => k x
  end.

Notation "x <- c ;; k" := (bind c (fun x => k))
  (at level 61, c at next level, right associativity).

(** ** The result *)

Record FeaturedImage := {
  title : JSValue;
  altText : JSValue;
  keywords : JSValue
}.

(** [SEORewriteResult].  A field that the code fills with a value taken from
    the model's reply holds whatever JSON value the reply had there, so it is
    a [JSValue] whatever the interface declares; [undefined] is an absent
    field. *)
Record SEORewriteResult := {
  rewrittenContent : JSValue;
  wordCount : Z;
  keywordDensity : jsstring;
  seoScore : Z;
  readabilityScore : jsstring;
  metaDescription : jsstring;
  helpfulnessScore : JSValue;
  qualityScore : JSValue;
  eatScore : JSValue;
  structureScore : JSValue;
  aiOptimizationScore : JSValue;
  featuredImage : FeaturedImage;
  faq : JSValue;
  caseStudies : JSValue;
  richContent : JSValue;
  citations : JSValue;
  internalLinking : JSValue;
  entities : JSValue;
  schemaMarkup : JSValue;
  authorBio : JSValue;
  ctaSection : JSValue
}.

(** How the promise of the async function settles. Every rejection is a
    [new Error(message)]. *)
Inductive Outcome :=
| Resolved (result : SEORewriteResult)
| Rejected (message : jsstring).

(** ** The inputs *)

(** The parameters. An optional string is [None] when the caller leaves it
    out.  [webSearchFunction] stands for what [getDynamicCaseStudies] (of
    dynamicCaseStudyService, not part of this file) does when it is called
    with that function, the keyword, the content and the limit 3: it throws,
    or it returns the case studies. *)
Record Params := {
  originalContent : jsstring;
  targetKeyword : jsstring;
  keywordLink : option jsstring;
  companyName : option jsstring;
  authorName : option jsstring;
  authorDescription : option jsstring;
  apiKey : option jsstring;
  webSearchFunction : option (Thrown + list JSValue)
}.

(** What surrounds a call: the environment variable, and what
    [openaiClient.chat.completions.create] does with the request: it
    rejects, or it resolves to a response, of which the code reads the
    [message.content] of the choices ([None] for [null]).  The request
    carries the prompt (lines 137 to 354: a template over the parameters,
    the case studies and the internal links of [generateValidInternalLinks]);
    the reply is any reply, so the prompt is not built here. *)
Record World := {
  OPENAI_API_KEY : option jsstring;
  create : Thrown + list (option jsstring)
}.

(** ToBoolean of an optional string: [undefined] and the empty string are
    falsy. *)
Definition given (o : option jsstring) : bool :=
  match o with
  | Some (_ :: _) => true
  | _ => false
  end.

(** [a || b] on optional strings. *)
Definition or_string (a b : option jsstring) : option jsstring :=
  if given a then a else b.

(** [a || d] for an optional string and a string. *)
Definition string_or (a : option jsstring) (d : jsstring) : jsstring :=
  match a with
  | Some (c :: s) => c :: s
  | _ => d
  end.

(** The text of a parameter inside a template literal. *)
Definition interpolate (o : option jsstring) : jsstring :=
  match o with
  | Some s => s
  | None => js "undefined"
  end.

(** ** The metrics (lines 379 to 382 and 436 to 439, the same text twice) *)

Definition wordCount_of (text : jsstring) : nat := List.length (split_ws text).

Definition keywordDensity_of (occurrences words : nat) : jsstring :=
  if (0 <? words)%nat
  then toFixed1 (Number_of_Z (Z.of_nat occurrences) / Number_of_Z (Z.of_nat words) * 100)%float
       ++ js "%"
  else js "0%".

Definition seoScore_of (occurrences words : nat) : Z :=
  Z.min 100 (Z.max 1 (Z.of_nat occurrences * 10 + (if (300 <? words)%nat then 20 else 10))).

Definition readabilityScore_of (words : nat) : jsstring :=
  if (500 <? words)%nat then js "Boa" else js "Regular".

(** ** The defaults (written out twice in the source, with the same text) *)

Definition defaultMetaDescription (keyword : jsstring) : jsstring :=
  keyword ++ js " - resumo otimizado para SEO".

Definition defaultFeaturedTitle (keyword : jsstring) : JSValue :=
  JString (js "Imagem sobre " ++ keyword).
Definition defaultFeaturedAltText (keyword : jsstring) : JSValue :=
  JString (keyword ++ js " - imagem ilustrativa").
Definition defaultFeaturedKeywords (keyword : jsstring) : JSValue :=
  JArray [JString keyword].

Definition defaultFaq (keyword : jsstring) : JSValue :=
  JArray [JObject [(js "question", JString (js "O que é " ++ keyword ++ js "?"));
                   (js "answer", JString (js "Resposta baseada no conteúdo reescrito."))]].

Definition emptyRichContent : JSValue :=
  JObject [(js "suggestedGraphics", JArray []);
           (js "suggestedImages", JArray []);
           (js "visualElements", JArray [])].

Definition emptyEntities : JSValue :=
  JObject [(js "brands", JArray []); (js "people", JArray []);
           (js "locations", JArray []); (js "concepts", JArray [])].

Definition articleOnlySchema : JSValue :=
  JObject [(js "articleSchema", JBool true);
           (js "authorSchema", JBool false);
           (js "faqSchema", JBool false);
           (js "organizationSchema", JBool false);
           (js "reviewSchema", JBool false)].

(** [authorName ? `Biografia do autor ${authorName}` : undefined] *)
Definition defaultAuthorBio (authorName : option jsstring) : JSValue :=
  if given authorName
  then JString (js "Biografia do autor " ++ interpolate authorName)
  else JUndefined.

(** [companyName ? { title, text, buttonText } : undefined] *)
Definition defaultCtaSection (keyword : jsstring) (companyName : option jsstring) : JSValue :=
  if given companyName
  then JObject
         [(js "title", JString (js "Transforme seu negócio com " ++ keyword));
          (js "text",
           JString (js "A " ++ interpolate companyName ++ js " é especialista em "
                    ++ keyword
                    ++ js " e pode ajudar você a alcançar os mesmos resultados. Entre em contato conosco hoje mesmo!"));
          (js "buttonText", JString (js "Falar com " ++ interpolate companyName))]
  else JUndefined.

(** ** The function *)

Section Service.
Context {E : Engine}.

Definition typeError {A} (site : TypeErrorSite) : M A :=
  throw (ErrorObject (typeErrorMessage site)).

(** [(text.toLowerCase().match(new RegExp(targetKeyword.toLowerCase(), 'g'))
    || []).length] (lines 380 and 437): the keyword is the source of the
    regular expression. *)
Definition keywordOccurrences (text keyword : jsstring) : M nat :=
  match regexpMatches (toLowerCase keyword) (toLowerCase text) with
  | inl message => throw (ErrorObject message)
  | inr n => ret n
  end.

(** Lines 114 to 123: the case studies, empty when there is no search
    function or when the lookup throws (the error is logged). *)
Definition realCaseStudies (p : Params) : list JSValue :=
  match webSearchFunction p with
  | Some (inr found) => found
  | _ => []
  end.

(** Line 128: [apiKey || process.env.OPENAI_API_KEY]. *)
Definition openaiApiKey (p : Params) (w : World) : option jsstring :=
  or_string (apiKey p) (OPENAI_API_KEY w).

(** Line 130: [!openaiApiKey || openaiApiKey === "dummy-key"]. *)
Definition keyMissing (k : option jsstring) : bool :=
  negb (given k) || str_eqb (interpolate k) (js "dummy-key").

Definition notConfigured : jsstring :=
  js "Chave de API do OpenAI não configurada. Configure nas configurações da aplicação.".

Definition emptyReply : jsstring := js "Resposta vazia da API OpenAI".

(** Lines 369 to 372: [response.choices[0].message.content], which must be
    a string that is not empty. *)
Definition replyContent (choices : list (option jsstring)) : M jsstring :=
  match choices with
  | [] => typeError (ReadOf JUndefined (js "message"))
  | content :: _ =>
      match content with
      | Some (c :: s) => ret (c :: s)
      | _ => throw (ErrorObject emptyReply)
      end
  end.

(** Lines 384 to 431: the object returned when the reply is no JSON text;
    [content] is the reply, [occurrences] the keyword count of line 380. *)
Definition plainTextRecord (p : Params) (content : jsstring) (occurrences : nat)
  : SEORewriteResult :=
  let keyword := targetKeyword p in
  let words := wordCount_of content in
  {| rewrittenContent := JString content;
     helpfulnessScore := JNumber 85;
     qualityScore := JNumber 80;
     eatScore := JNumber 75;
     structureScore := JNumber 82;
     aiOptimizationScore := JNumber 78;
     richContent := emptyRichContent;
     citations := JArray [];
     internalLinking := JArray [];
     entities := emptyEntities;
     schemaMarkup := articleOnlySchema;
     wordCount := Z.of_nat words;
     keywordDensity := keywordDensity_of occurrences words;
     seoScore := seoScore_of occurrences words;
     readabilityScore := readabilityScore_of words;
     metaDescription := defaultMetaDescription keyword;
     featuredImage := {| title := defaultFeaturedTitle keyword;
                         altText := defaultFeaturedAltText keyword;
                         keywords := defaultFeaturedKeywords keyword |};
     faq := defaultFaq keyword;
     caseStudies := JArray (realCaseStudies p);
     authorBio := defaultAuthorBio (authorName p);
     ctaSection := defaultCtaSection keyword (companyName p) |}.

(** Lines 378 to 431: the [catch] of [JSON.parse]; the reply is taken as
    the rewritten text. *)
Definition plainTextResult (p : Params) (content : jsstring) : M SEORewriteResult :=
  occurrences <- keywordOccurrences content (targetKeyword p) ;;
  ret (plainTextRecord p content occurrences).

(** [result.name], which throws on [null]. *)
Definition read (result : JSValue) (name : jsstring) : M JSValue :=
  if nullish result then typeError (ReadOf result name) else ret (member result name).

(** [v?.name] *)
Definition optionalMember (v : JSValue) (name : jsstring) : JSValue :=
  if nullish v then JUndefined else member v name.

(** [v.split(/\s+/)] for the [v] of line 435: a method of strings only. *)
Definition splitOf (v : JSValue) : M jsstring :=
  match v with
  | JString text => ret text
  | _ => typeError (NotCallable (js "rewrittenContent.split"))
  end.

(** [v?.substring(0, n)]: [undefined] on [undefined] and [null], a method
    of strings only. *)
Definition optionalSubstring (n : nat) (callee : jsstring) (v : JSValue) : M (option jsstring) :=
  match v with
  | JUndefined | JNull => ret None
  | JString s => ret (Some (substring0 n s))
  | _ => typeError (NotCallable callee)
  end.

(** [v?.slice(0, n)]: [undefined] on [undefined] and [null], a method of
    arrays and of strings. *)
Definition optionalSlice (n : nat) (callee : jsstring) (v : JSValue) : M JSValue :=
  match v with
  | JUndefined | JNull => ret JUndefined
  | JArray l => ret (JArray (slice0 n l))
  | JString s => ret (JString (slice0 n s))
  | _ => typeError (NotCallable callee)
  end.

(** Lines 441 to 488: the object returned when the reply is a JSON text
    with value [result]; [text] is the rewritten text of line 435,
    [occurrences] the keyword count of line 437, and [description],
    [questions] and [studies] are what [result.metaDescription?.substring(0,
    155)], [result.faq?.slice(0, 8)] and [result.caseStudies?.slice(0, 3)]
    gave. *)
Definition jsonRecord (p : Params) (result : JSValue) (text : jsstring) (occurrences : nat)
    (description : option jsstring) (questions studies : JSValue) : SEORewriteResult :=
  let keyword := targetKeyword p in
  let words := wordCount_of text in
  let image := member result (js "featuredImage") in
  {| rewrittenContent := member result (js "rewrittenContent");
     wordCount := Z.of_nat words;
     keywordDensity := keywordDensity_of occurrences words;
     seoScore := seoScore_of occurrences words;
     readabilityScore := readabilityScore_of words;
     metaDescription := string_or description (defaultMetaDescription keyword);
     helpfulnessScore := or_else (member result (js "helpfulnessScore")) (JNumber 85);
     qualityScore := or_else (member result (js "qualityScore")) (JNumber 80);
     eatScore := or_else (member result (js "eatScore")) (JNumber 75);
     structureScore := or_else (member result (js "structureScore")) (JNumber 82);
     aiOptimizationScore :=
       or_else (member result (js "aiOptimizationScore")) (JNumber 78);
     featuredImage :=
       {| title := or_else (optionalMember image (js "title"))
                     (defaultFeaturedTitle keyword);
          altText := or_else (optionalMember image (js "altText"))
                       (defaultFeaturedAltText keyword);
          keywords := or_else (optionalMember image (js "keywords"))
                        (defaultFeaturedKeywords keyword) |};
     faq := or_else questions (defaultFaq keyword);
     caseStudies := or_else studies (JArray (realCaseStudies p));
     richContent := or_else (member result (js "richContent")) emptyRichContent;
     citations := or_else (member result (js "citations")) (JArray []);
     internalLinking := or_else (member result (js "internalLinking")) (JArray []);
     entities := or_else (member result (js "entities")) emptyEntities;
     schemaMarkup := or_else (member result (js "schemaMarkup")) articleOnlySchema;
     authorBio := or_else (member result (js "authorBio"))
                    (defaultAuthorBio (authorName p));
     ctaSection := or_else (member result (js "ctaSection"))
                     (defaultCtaSection keyword (companyName p)) |}.

(** Lines 434 to 488, in the order of evaluation: [result.rewrittenContent]
    (a TypeError on [null]), [split], the keyword count, and the three method
    calls inside the object literal. *)
Definition jsonResult (p : Params) (result : JSValue) : M SEORewriteResult :=
  content <- read result (js "rewrittenContent") ;;
  text <- splitOf (or_else content (JString [])) ;;
  occurrences <- keywordOccurrences text (targetKeyword p) ;;
  description <- optionalSubstring 155 (js "result.metaDescription?.substring")
                   (member result (js "metaDescription")) ;;
  questions <- optionalSlice 8 (js "result.faq?.slice") (member result (js "faq")) ;;
  studies <- optionalSlice 3 (js "result.caseStudies?.slice")
               (member result (js "caseStudies")) ;;
  ret (jsonRecord p result text occurrences description questions studies).

(** The body of the [try] (lines 113 to 488). *)
Definition attempt (p : Params) (w : World) : M SEORewriteResult :=
  _ <- (if keyMissing (openaiApiKey p w)
        then throw (ErrorObject notConfigured)
        else ret tt) ;;
  response <- create w ;;
  content <- replyContent response ;;
  match JSON_parse content with
  | None => plainTextResult p content
  | Some result => jsonResult p result
  end.

(** The [catch] (lines 490 to 506): the message of the Error that is
    thrown in place of whatever was caught. *)
Definition wrapped : jsstring := js "Erro no processamento do conteúdo: ".
Definition keyRejected : jsstring := js "Chave da API OpenAI não configurada corretamente".
Definition quotaExceeded : jsstring :=
  js "Limite da API OpenAI excedido. Tente novamente mais tarde".
Definition rateLimited : jsstring :=
  js "Muitas requisições. Aguarde alguns minutos e tente novamente".

Definition surfaced (e : Thrown) : jsstring :=
  match e with
  | ErrorObject message =>
      if includes message (js "API key") then keyRejected
      else if includes message (js "quota") then quotaExceeded
      else if includes message (js "rate limit") then rateLimited
      else wrapped ++ message
  | OtherValue => wrapped ++ js "Erro desconhecido"
  end.

Definition rewriteContentWithSEO (p : Params) (w : World) : Outcome :=
  match attempt p w with
  | inr result => Resolved result
  | inl e => Rejected (surfaced e)
  end.

End Service.

End OpenAI.

(* ================================================================= *)
(** * Part IV: the persistence adapter, [DatabaseStorage] *)

Module Storage.

(** The tables are those of shared/schema, which is not among these files.
    Of a row the code names the columns [updatedAt], [createdAt], [seoScore]
    and [wordCount]; the other columns are left open: [InsertConfig] is what
    the caller of [saveConfig] supplies, [HistoryColumns] the rest of a
    history entry.

    Numbers: the two score columns hold integers or NULL; their sums are in
    [Z] and the mean is the exact quotient.  JavaScript computes both in
    doubles, which gives the same result as long as a sum stays below 2^52.
    A call that the store rejects is not modelled: every call here is one
    that the store carries out. *)

Definition Date := Z.

(** [Math.round]: the nearest integer, the larger one on a tie. *)
Definition Math_round (x : Q) : Z := Qfloor (x + (1 # 2)).

Section DatabaseStorage.
Variable InsertConfig : Type.
Variable HistoryColumns : Type.

Record Config := {
  config_id : Z;
  config_values : InsertConfig;
  updatedAt : Date
}.

Record RewriteHistory := {
  id : Z;
  seoScore : option Z;
  wordCount : option Z;
  history_values : HistoryColumns;
  createdAt : Date
}.

(** The store: the rows of the two tables in the order of insertion, and
    the sequences behind the serial [id] columns. *)
Record Db := {
  configs : list Config;
  rewriteHistory : list RewriteHistory;
  configs_id_seq : Z;
  rewriteHistory_id_seq : Z
}.

(** [orderBy(desc(configs.updatedAt)).limit(1)]: a row with the greatest
    [updatedAt] (among several, which one is the store's choice; here the
    one inserted first). *)
Fixpoint latest (rows : list Config) : option Config :=
  match rows with
  | [] => None
  | c :: rest =>
      match latest rest with
      | Some d => if (updatedAt c <? updatedAt d)%Z then Some d else Some c
      | None => Some c
      end
  end.

Definition getConfig (db : Db) : option Config := latest (configs db).

(** [saveConfig(configData)] at the time [now] of its [new Date()]: delete
    every row of [configs], then insert the new one and return it. *)
Definition saveConfig (configData : InsertConfig) (now : Date) (db : Db) : Config * Db :=
  let deleted := {| configs := [];
                    rewriteHistory := rewriteHistory db;
                    configs_id_seq := configs_id_seq db;
                    rewriteHistory_id_seq := rewriteHistory_id_seq db |} in
  let config := {| config_id := configs_id_seq deleted;
                   config_values := configData;
                   updatedAt := now |} in
  (config,
   {| configs := configs deleted ++ [config];
      rewriteHistory := rewriteHistory deleted;
      configs_id_seq := configs_id_seq deleted + 1;
      rewriteHistory_id_seq := rewriteHistory_id_seq deleted |}).

(** A sequence of [saveConfig] calls, each with its record and its time. *)
Definition saveConfigs (calls : list (InsertConfig * Date)) (db : Db) : Db :=
  fold_left (fun d call => snd (saveConfig (fst call) (snd call) d)) calls db.

(** [Omit<RewriteHistory, 'id' | 'createdAt'>] *)
Record HistoryData := {
  data_seoScore : option Z;
  data_wordCount : option Z;
  data_values : HistoryColumns
}.

Definition saveRewriteHistory (historyData : HistoryData) (now : Date) (db : Db)
  : RewriteHistory * Db :=
  let history := {| id := rewriteHistory_id_seq db;
                    seoScore := data_seoScore historyData;
                    wordCount := data_wordCount historyData;
                    history_values := data_values historyData;
                    createdAt := now |} in
  (history,
   {| configs := configs db;
      rewriteHistory := rewriteHistory db ++ [history];
      configs_id_seq := configs_id_seq db;
      rewriteHistory_id_seq := rewriteHistory_id_seq db + 1 |}).

Record Stats := {
  totalRewrites : Z;
  avgSeoScore : Z;
  totalWordCount : Z
}.

(** [x || 0] on a nullable integer. *)
Definition or_zero (x : option Z) : Z :=
  match x with
  | Some z => z
  | None => 0%Z
  end.

Definition getStats (db : Db) : Stats :=
  let history := rewriteHistory db in
  {| totalRewrites := Z.of_nat (List.length history);
     avgSeoScore :=
       if (0 <? List.length history)%nat
       then Math_round
              (inject_Z (fold_left (fun sum item => (sum + or_zero (seoScore item))%Z) history 0%Z)
               / inject_Z (Z.of_nat (List.length history)))
       else 0%Z;
     totalWordCount :=
       fold_left (fun sum item => (sum + or_zero (wordCount item))%Z) history 0%Z |}.

End DatabaseStorage.

End Storage.

(* ================================================================= *)
(** * Part V: properties of the persistence adapter *)

Module StorageProps.
Import Storage.

(** The sum of a list of integers, as the specification reads it. *)
Definition total (xs : list Z) : Z := fold_right Z.add 0%Z xs.

Section Props.
Variable InsertConfig : Type.
Variable HistoryColumns : Type.

Lemma saveConfigs_snoc (calls : list (InsertConfig * Date)) (configData : InsertConfig)
    (now : Date) (db : Db InsertConfig HistoryColumns) :
  saveConfigs (calls ++ [(configData, now)]) db
  = snd (saveConfig configData now (saveConfigs calls db)).
Proof.
  unfold saveConfigs. rewrite fold_left_app. reflexivity.
Qed.

(** C3. After a sequence of [saveConfig] calls that is not empty (some
    calls, then a last one with [configData] at time [now]), the table holds
    exactly one row, the one the last call inserted and returned;
    [getConfig] returns it, and it carries [configData].  In particular two
    calls in a row leave exactly the second record. *)
Theorem saveConfig_replaces (calls : list (InsertConfig * Date))
    (configData : InsertConfig) (now : Date) (db : Db InsertConfig HistoryColumns) :
  let before := saveConfigs calls db in
  let saved := fst (saveConfig configData now before) in
  let after := saveConfigs (calls ++ [(configData, now)]) db in
  configs after = [saved]
  /\ getConfig after = Some saved
  /\ config_values saved = configData
  /\ updatedAt saved = now
  /\ (forall first earlier,
        let twice := snd (saveConfig configData now (snd (saveConfig first earlier db))) in
        List.length (configs twice) = 1%nat
        /\ option_map (@config_values _) (getConfig twice) = Some configData).
Proof.
  intros before saved after. subst after saved.
  rewrite saveConfigs_snoc. fold before.
  unfold getConfig. cbn. repeat split; reflexivity.
Qed.

(** [reduce] with an accumulator that starts at [start] adds the sum of the
    list to it. *)
Lemma reduce_total (f : RewriteHistory HistoryColumns -> Z)
    (history : list (RewriteHistory HistoryColumns)) (start : Z) :
  fold_left (fun sum item => (sum + f item)%Z) history start
  = (start + total (map f history))%Z.
Proof.
  unfold total. revert start.
  induction history as [| item rest IH]; intros start; cbn.
  - lia.
  - rewrite IH. lia.
Qed.

(** [Math.round] of a quotient is the integer nearest to it, the larger one
    on a tie: [r - 1/2 <= s / n < r + 1/2]. *)
Lemma Math_round_nearest (s : Z) (n : positive) :
  let r := Math_round (inject_Z s / inject_Z (Z.pos n)) in
  ((2 * r - 1) * Z.pos n <= 2 * s < (2 * r + 1) * Z.pos n)%Z.
Proof.
  intros r. subst r. unfold Math_round.
  set (x := (inject_Z s / inject_Z (Z.pos n) + (1 # 2))%Q).
  pose proof (Qfloor_le x) as Hle. pose proof (Qlt_floor x) as Hlt.
  generalize dependent (Qfloor x). intros fl Hle Hlt.
  unfold x, Qle, Qlt, Qplus, Qdiv, Qmult, Qinv, inject_Z in Hle, Hlt.
  cbn in Hle, Hlt. rewrite Pos2Z.inj_mul in Hle, Hlt. lia.
Qed.

(** The mean that [getStats] rounds: on a history that is not empty
    [avgSeoScore] is the integer nearest to the sum that [reduce] computes,
    divided by the number of entries. *)
Lemma avgSeoScore_nearest (db : Db InsertConfig HistoryColumns) :
  rewriteHistory db <> [] ->
  let n := Z.of_nat (List.length (rewriteHistory db)) in
  let s := total (map (fun item => or_zero (seoScore item)) (rewriteHistory db)) in
  ((2 * avgSeoScore (getStats db) - 1) * n <= 2 * s
   < (2 * avgSeoScore (getStats db) + 1) * n)%Z.
Proof.
  intros Hne n s. subst n s. unfold getStats. cbn.
  destruct (rewriteHistory db) as [| item rest]; [congruence |].
  replace (0 <? List.length (item :: rest))%nat with true by reflexivity.
  rewrite reduce_total. rewrite Z.add_0_l.
  replace (Z.of_nat (List.length (item :: rest)))
    with (Z.pos (Pos.of_succ_nat (List.length rest))) by (cbn; lia).
  apply Math_round_nearest.
Qed.


End Props.

(** A history of three entries, one without a score: the scores 40, 0 and
    95 have mean 45, the word counts sum to 2100; and 1 and 2 have mean 1.5,
    which rounds to 2. *)
Example getStats_of_three :
  let entry (k : Z) s w :=
    {| id := k; seoScore := s; wordCount := w; history_values := tt; createdAt := k |} in
  getStats {| configs := @nil (Config unit);
              rewriteHistory := [entry 1 (Some 40) (Some 900); entry 2 None (Some 1200);
                                 entry 3 (Some 95) None]%Z;
              configs_id_seq := 1; rewriteHistory_id_seq := 4 |}
  = {| totalRewrites := 3; avgSeoScore := 45; totalWordCount := 2100 |}
  /\ avgSeoScore
       (getStats {| configs := @nil (Config unit);
                    rewriteHistory := [entry 1 (Some 1) None; entry 2 (Some 2) None]%Z;
                    configs_id_seq := 1; rewriteHistory_id_seq := 3 |}) = 2%Z.
Proof. split; reflexivity. Qed.

(** A store with a history of three entries: the second has no score, the
    third no word count. *)
Definition threeRewrites : Db unit unit :=
  {| configs := [];
     rewriteHistory :=
       [{| id := 1%Z; seoScore := Some 40%Z; wordCount := Some 900%Z;
           history_values := tt; createdAt := 1%Z |};
        {| id := 2%Z; seoScore := None; wordCount := Some 1200%Z;
           history_values := tt; createdAt := 2%Z |};
        {| id := 3%Z; seoScore := Some 95%Z; wordCount := None;
           history_values := tt; createdAt := 3%Z |}];
     configs_id_seq := 1%Z;
     rewriteHistory_id_seq := 4%Z |}.


End StorageProps.

(* ================================================================= *)
(** * Part VI: properties of the OpenAI service *)

Module OpenAIProps.
Import JS OpenAI.

(** ** White space and words *)

(** The whitespace-token count of the specification: the number of maximal
    runs of code units that are not white space. [inword] says that the
    previous code unit belongs to a token. *)
Fixpoint tokens_from (inword : bool) (s : jsstring) : nat :=
  match s with
  | [] => 0
  | c :: s' =>
      if isWhiteSpace c then tokens_from false s'
      else (if inword then 0 else 1) + tokens_from true s'
  end.

Definition whitespaceTokens (s : jsstring) : nat := tokens_from false s.

(** The text ends with white space ([prev] for the empty text). *)
Fixpoint ends_ws (prev : bool) (s : jsstring) : bool :=
  match s with
  | [] => prev
  | c :: s' => ends_ws (isWhiteSpace c) s'
  end.

(** The text is not empty and neither begins nor ends with white space. *)
Definition trimmed (s : jsstring) : bool :=
  match s with
  | [] => false
  | c :: s' => negb (isWhiteSpace c) && negb (ends_ws false s)
  end.

Lemma split_ws_pieces (s : jsstring) :
  forall cur,
    List.length (split_ws_from cur true s)
    = (tokens_from false s + (if ends_ws true s then 1 else 0))%nat
    /\ List.length (split_ws_from cur false s)
      = (tokens_from true s + 1 + (if ends_ws false s then 1 else 0))%nat.
Proof.
  induction s as [| c s' IH]; intros cur; cbn.
  - split; reflexivity.
  - destruct (isWhiteSpace c) eqn:Hc; cbn.
    + destruct (IH cur) as [Hws _]. destruct (IH []) as [Hws' _].
      rewrite Hws, Hws'. split; lia.
    + destruct (IH (c :: cur)) as [_ Hword]. rewrite Hword. split; lia.
Qed.

(** [split] never gives an empty array: the word count is at least 1. *)
Lemma wordCount_of_positive (text : jsstring) : (0 <? wordCount_of text)%nat = true.
Proof.
  unfold wordCount_of, split_ws.
  destruct (split_ws_pieces text []) as [_ H]. rewrite H.
  apply Nat.ltb_lt. lia.
Qed.

Lemma wordCount_of_trimmed (text : jsstring) :
  trimmed text = true -> wordCount_of text = whitespaceTokens text.
Proof.
  unfold trimmed, wordCount_of, split_ws, whitespaceTokens.
  destruct text as [| c s']; [discriminate |].
  intros H. apply andb_prop in H as [Hc Hend].
  apply negb_true_iff in Hc, Hend.
  destruct (split_ws_pieces (c :: s') []) as [_ Hword]. rewrite Hword, Hend.
  cbn. rewrite Hc. lia.
Qed.

Section Props.
Context {E : Engine}.

(** ** The metrics as the specification words them *)

(** The number of places of the text at which the keyword stands. *)
Fixpoint literalOccurrences (keyword text : jsstring) : nat :=
  (if startsWith text keyword then 1 else 0)
  + match text with
    | [] => 0
    | _ :: text' => literalOccurrences keyword text'
    end.

(** "Case-insensitive literal occurrences of the keyword". *)
Definition claimedOccurrences (keyword text : jsstring) : nat :=
  literalOccurrences (toLowerCase keyword) (toLowerCase text).

(** "(occurrences / word count) x 100, formatted to one decimal plus a
    percent sign", "0%" for the empty text, over the whitespace tokens. *)
Definition claimedKeywordDensity (keyword text : jsstring) : jsstring :=
  keywordDensity_of (claimedOccurrences keyword text) (whitespaceTokens text).

(** "clamp(1..100, occurrences x 10 + (20 if word count > 300 else 10))" *)
Definition claimedSeoScore (keyword text : jsstring) : Z :=
  Z.min 100
    (Z.max 1 (Z.of_nat (claimedOccurrences keyword text) * 10
              + (if (300 <? whitespaceTokens text)%nat then 20 else 10))).

(** ** Reading a settled call *)


Lemma resolved_inv (p : Params) (w : World) (r : SEORewriteResult) :
  rewriteContentWithSEO p w = Resolved r ->
  keyMissing (openaiApiKey p w) = false
  /\ exists c content others,
       create w = inr (Some (c :: content) :: others)
       /\ match JSON_parse (c :: content) with
          | None => plainTextResult p (c :: content) = inr r
          | Some result => jsonResult p result = inr r
          end.
Proof.
  unfold rewriteContentWithSEO, attempt.
  destruct (keyMissing (openaiApiKey p w)); cbn; [discriminate |].
  destruct (create w) as [e | choices]; cbn; [discriminate |].
  destruct choices as [| [[| c content] |] others]; cbn; try discriminate.
  intros H. split; [reflexivity |]. exists c, content, others.
  split; [reflexivity |]. revert H.
  destruct (JSON_parse (c :: content)) as [result |].
  - destruct (jsonResult p result); [discriminate | now intros [= ->]].
  - destruct (plainTextResult p (c :: content)); [discriminate | now intros [= ->]].
Qed.

Lemma plainTextResult_inv (p : Params) (content : jsstring) (r : SEORewriteResult) :
  plainTextResult p content = inr r ->
  exists occurrences,
    regexpMatches (toLowerCase (targetKeyword p)) (toLowerCase content) = inr occurrences
    /\ r = plainTextRecord p content occurrences.
Proof.
  unfold plainTextResult, keywordOccurrences.
  destruct (regexpMatches _ _) as [m | k]; cbn; [discriminate |].
  unfold ret. intros [= <-]. exists k. split; reflexivity.
Qed.

(** The rewritten text of line 435, [result.rewrittenContent || ""], when
    it is a string. *)
Definition rewrittenText (content : JSValue) : option jsstring :=
  match or_else content (JString []) with
  | JString text => Some text
  | _ => None
  end.

Lemma bind_inv {A B} (c : M A) (k : A -> M B) (y : B) :
  bind c k = inr y -> exists x, c = inr x /\ k x = inr y.
Proof.
  destruct c as [e | x]; cbn; [discriminate |].
  intros H. exists x. split; [reflexivity | exact H].
Qed.

Lemma jsonResult_inv (p : Params) (result : JSValue) (r : SEORewriteResult) :
  jsonResult p result = inr r ->
  exists text occurrences description questions studies,
    nullish result = false
    /\ rewrittenText (member result (js "rewrittenContent")) = Some text
    /\ regexpMatches (toLowerCase (targetKeyword p)) (toLowerCase text) = inr occurrences
    /\ optionalSubstring 155 (js "result.metaDescription?.substring")
         (member result (js "metaDescription")) = inr description
    /\ optionalSlice 8 (js "result.faq?.slice") (member result (js "faq")) = inr questions
    /\ optionalSlice 3 (js "result.caseStudies?.slice")
         (member result (js "caseStudies")) = inr studies
    /\ r = jsonRecord p result text occurrences description questions studies.
Proof.
  unfold jsonResult. intros H.
  apply bind_inv in H as (content & Hread & H).
  apply bind_inv in H as (text & Hsplit & H).
  apply bind_inv in H as (occurrences & Hocc & H).
  apply bind_inv in H as (description & Hdesc & H).
  apply bind_inv in H as (questions & Hfaq & H).
  apply bind_inv in H as (studies & Hcases & H).
  unfold read in Hread.
  destruct (nullish result) eqn:Hnull; [discriminate |].
  injection Hread as <-. injection H as <-.
  exists text, occurrences, description, questions, studies.
  repeat split; try assumption.
  - unfold rewrittenText.
    destruct (or_else (member result (js "rewrittenContent")) (JString []));
      try discriminate.
    now injection Hsplit as ->.
  - unfold keywordOccurrences in Hocc.
    destruct (regexpMatches (toLowerCase (targetKeyword p)) (toLowerCase text));
      [discriminate |].
    now injection Hocc as ->.
Qed.

(** ** What every result has *)

Lemma resolved_metrics (p : Params) (w : World) (r : SEORewriteResult) :
  rewriteContentWithSEO p w = Resolved r ->
  exists text occurrences,
    rewrittenText (rewrittenContent r) = Some text
    /\ regexpMatches (toLowerCase (targetKeyword p)) (toLowerCase text) = inr occurrences
    /\ wordCount r = Z.of_nat (wordCount_of text)
    /\ keywordDensity r = keywordDensity_of occurrences (wordCount_of text)
    /\ seoScore r = seoScore_of occurrences (wordCount_of text).
Proof.
  intros H. apply resolved_inv in H as (_ & c & content & others & _ & H).
  destruct (JSON_parse (c :: content)) as [result |].
  - apply jsonResult_inv in H
      as (text & k & description & questions & studies & _ & Htext & Hk & _ & _ & _ & ->).
    exists text, k. repeat split; assumption.
  - apply plainTextResult_inv in H as (k & Hk & ->).
    exists (c :: content), k. repeat split; assumption.
Qed.

(** C8. The SEO score of every result, on the JSON path and on the plain
    text path alike, is an integer from 1 to 100. *)
Theorem seoScore_in_range (p : Params) (w : World) (r : SEORewriteResult) :
  rewriteContentWithSEO p w = Resolved r -> (1 <= seoScore r <= 100)%Z.
Proof.
  intros H. apply resolved_metrics in H as (text & k & _ & _ & _ & _ & ->).
  unfold seoScore_of. lia.
Qed.

(** C9. When the reply is not a JSON text, the result has no citations, no
    internal links, no suggested graphics, images or visual elements, and
    its schema markup is the article schema alone. *)
Theorem plain_reply_defaults (p : Params) (w : World) (r : SEORewriteResult)
    (content : jsstring) (others : list (option jsstring)) :
  create w = inr (Some content :: others) ->
  JSON_parse content = None ->
  rewriteContentWithSEO p w = Resolved r ->
  citations r = JArray []
  /\ internalLinking r = JArray []
  /\ richContent r = JObject [(js "suggestedGraphics", JArray []);
                              (js "suggestedImages", JArray []);
                              (js "visualElements", JArray [])]
  /\ schemaMarkup r = JObject [(js "articleSchema", JBool true);
                               (js "authorSchema", JBool false);
                               (js "faqSchema", JBool false);
                               (js "organizationSchema", JBool false);
                               (js "reviewSchema", JBool false)].
Proof.
  intros Hcreate Hparse H.
  apply resolved_inv in H as (_ & c & content' & others' & Hcreate' & H).
  rewrite Hcreate in Hcreate'. injection Hcreate' as -> ->.
  rewrite Hparse in H.
  apply plainTextResult_inv in H as (k & _ & ->).
  repeat split; reflexivity.
Qed.

(** X18. The word count, the keyword density and the SEO
    score of every result are computed from the rewritten text (the reply
    itself on the plain text path, [result.rewrittenContent || ""] on the
    JSON path) and the keyword alone, whatever the reply says about them.
    The word count is the number of pieces [split(/\s+/)] gives, which is
    the whitespace-token count for a text that is not empty and neither
    begins nor ends with white space; the occurrences are the matches of
    the lower-cased keyword, read as the source of a regular expression, in
    the lower-cased text; the density is their quotient times 100 with one
    fraction digit and a percent sign; the score is
    [min(100, max(1, occurrences * 10 + (20 if words > 300 else 10)))]. *)
Theorem metrics_recomputed (p : Params) (w : World) (r : SEORewriteResult) :
  rewriteContentWithSEO p w = Resolved r ->
  exists text occurrences,
    rewrittenText (rewrittenContent r) = Some text
    /\ regexpMatches (toLowerCase (targetKeyword p)) (toLowerCase text) = inr occurrences
    /\ wordCount r = Z.of_nat (wordCount_of text)
    /\ (trimmed text = true -> wordCount r = Z.of_nat (whitespaceTokens text))
    /\ keywordDensity r
       = toFixed1 (Number_of_Z (Z.of_nat occurrences)
                   / Number_of_Z (Z.of_nat (wordCount_of text)) * 100)%float ++ js "%"
    /\ seoScore r
       = Z.min 100
           (Z.max 1 (Z.of_nat occurrences * 10
                     + (if (300 <? wordCount_of text)%nat then 20 else 10))).
Proof.
  intros H.
  apply resolved_metrics in H as (text & k & Htext & Hk & Hwords & Hdensity & Hscore).
  exists text, k. repeat split; try assumption.
  - intros Htrim. rewrite Hwords, (wordCount_of_trimmed text Htrim). reflexivity.
  - rewrite Hdensity. unfold keywordDensity_of.
    rewrite wordCount_of_positive. reflexivity.
Qed.

(** ** The optional sections *)

Lemma or_else_present (x d : JSValue) :
  or_else x d <> JUndefined <-> truthy x = true \/ d <> JUndefined.
Proof.
  unfold or_else. destruct (truthy x) eqn:Hx.
  - split; [auto |]. intros _ ->. discriminate.
  - split; [auto |]. intros [Habs | Hd]; [discriminate | exact Hd].
Qed.

Lemma defaultAuthorBio_present (name : option jsstring) :
  defaultAuthorBio name <> JUndefined <-> given name = true.
Proof.
  unfold defaultAuthorBio. destruct (given name).
  - split; [reflexivity | discriminate].
  - split; [congruence | discriminate].
Qed.

Lemma defaultCtaSection_present (keyword : jsstring) (company : option jsstring) :
  defaultCtaSection keyword company <> JUndefined <-> given company = true.
Proof.
  unfold defaultCtaSection. destruct (given company).
  - split; [reflexivity | discriminate].
  - split; [congruence | discriminate].
Qed.

(** C6, as the code has it. On the plain text path [authorBio] is present
    exactly when an author name that is not empty was supplied, and
    [ctaSection] exactly when a company name that is not empty was.  On the
    JSON path the reply comes first: [authorBio] is present exactly when
    the reply has a truthy [authorBio] or such an author name was supplied,
    and [ctaSection] likewise with the company name. *)
Theorem optional_sections (p : Params) (w : World) (r : SEORewriteResult)
    (content : jsstring) (others : list (option jsstring)) :
  create w = inr (Some content :: others) ->
  rewriteContentWithSEO p w = Resolved r ->
  match JSON_parse content with
  | None =>
      (authorBio r <> JUndefined <-> given (authorName p) = true)
      /\ (ctaSection r <> JUndefined <-> given (companyName p) = true)
  | Some result =>
      (authorBio r <> JUndefined
       <-> truthy (member result (js "authorBio")) = true \/ given (authorName p) = true)
      /\ (ctaSection r <> JUndefined
          <-> truthy (member result (js "ctaSection")) = true
              \/ given (companyName p) = true)
  end.
Proof.
  intros Hcreate H.
  apply resolved_inv in H as (_ & c & content' & others' & Hcreate' & H).
  rewrite Hcreate in Hcreate'. injection Hcreate' as -> ->.
  destruct (JSON_parse (c :: content')) as [result |].
  - apply jsonResult_inv in H
      as (text & k & description & questions & studies & _ & _ & _ & _ & _ & _ & ->).
    cbn. rewrite !or_else_present, defaultAuthorBio_present, defaultCtaSection_present.
    split; reflexivity.
  - apply plainTextResult_inv in H as (k & _ & ->). cbn.
    split; [apply defaultAuthorBio_present | apply defaultCtaSection_present].
Qed.

(** ** Failures *)

Lemma notConfigured_is_wrapped :
  surfaced (ErrorObject notConfigured) = wrapped ++ notConfigured.
Proof. vm_compute. reflexivity. Qed.

(** C4, as the code has it. When [apiKey || process.env.OPENAI_API_KEY] is
    undefined, empty or the placeholder, the call is rejected whatever the
    endpoint would answer, and the message of the rejection is the
    configuration message behind the prefix of the [catch] block. *)
Theorem missing_key_is_wrapped (p : Params) (w : World) :
  openaiApiKey p w = None \/ openaiApiKey p w = Some []
  \/ openaiApiKey p w = Some (js "dummy-key") ->
  rewriteContentWithSEO p w = Rejected (wrapped ++ notConfigured).
Proof.
  intros Hkey.
  assert (Hmissing : keyMissing (openaiApiKey p w) = true).
  { destruct Hkey as [-> | [-> | ->]]; reflexivity. }
  assert (Hattempt : attempt p w = inl (ErrorObject notConfigured)).
  { unfold attempt. rewrite Hmissing. reflexivity. }
  unfold rewriteContentWithSEO. rewrite Hattempt.
  now rewrite notConfigured_is_wrapped.
Qed.

(** A field is present when it is not [undefined]. *)
Definition present (v : JSValue) : Prop := v <> JUndefined.

(** The reply's value for a field: that member of the parsed reply, and
    [undefined] when the reply is no JSON text. *)
Definition replyMember (reply : option JSValue) (name : jsstring) : JSValue :=
  match reply with
  | Some result => member result name
  | None => JUndefined
  end.

(** [field] is truthy, and it is the reply's own value [own] when that is
    truthy (taken over as it is, whatever its type) and the default
    otherwise. *)
Definition ownOr (default own field : JSValue) : Prop :=
  truthy field = true
  /\ ((truthy own = true /\ field = own) \/ (truthy own = false /\ field = default)).

(** [field] is truthy, and it is the first [n] elements of the reply's own
    array (or code units of its own string, when that is not empty), and the
    default when the reply has neither. *)
Definition cutOr (n : nat) (default own field : JSValue) : Prop :=
  truthy field = true
  /\ ((exists l, own = JArray l /\ field = JArray (firstn n l))
      \/ (exists c s, own = JString (c :: s) /\ field = JString (firstn n (c :: s)))
      \/ ((own = JUndefined \/ own = JNull \/ own = JString []) /\ field = default)).

(** [field] is not empty, and it is the first [n] code units of the reply's
    own string when that is not empty, and the default when the reply has
    none. *)
Definition cutText (n : nat) (default : jsstring) (own : JSValue) (field : jsstring) : Prop :=
  field <> []
  /\ ((exists c s, own = JString (c :: s) /\ field = firstn n (c :: s))
      \/ ((own = JUndefined \/ own = JNull \/ own = JString []) /\ field = default)).

(** What a result holds in its required fields other than
    [rewrittenContent], given the value [reply] of the reply ([None] when it
    is no JSON text).  Each field that can come from the reply is truthy,
    and is the reply's own value or the complete default of the source;
    [metaDescription] is a string that is not empty, [keywordDensity] a
    string that ends in the percent sign and [readabilityScore] one of two
    words.  ([wordCount] and [seoScore] are numbers by construction.)  A
    nested field is thereby present wherever the default is used, and is
    whatever the reply has where the reply's value is taken. *)
Definition populated (p : Params) (reply : option JSValue) (r : SEORewriteResult) : Prop :=
  let keyword := targetKeyword p in
  let own := fun name => replyMember reply (js name) in
  let image := own "featuredImage"%string in
  ownOr (JNumber 85) (own "helpfulnessScore"%string) (helpfulnessScore r)
  /\ ownOr (JNumber 80) (own "qualityScore"%string) (qualityScore r)
  /\ ownOr (JNumber 75) (own "eatScore"%string) (eatScore r)
  /\ ownOr (JNumber 82) (own "structureScore"%string) (structureScore r)
  /\ ownOr (JNumber 78) (own "aiOptimizationScore"%string) (aiOptimizationScore r)
  /\ ownOr (JString (js "Imagem sobre " ++ keyword)) (optionalMember image (js "title"))
       (title (featuredImage r))
  /\ ownOr (JString (keyword ++ js " - imagem ilustrativa"))
       (optionalMember image (js "altText")) (altText (featuredImage r))
  /\ ownOr (JArray [JString keyword]) (optionalMember image (js "keywords"))
       (keywords (featuredImage r))
  /\ cutOr 8
       (JArray [JObject [(js "question", JString (js "O que é " ++ keyword ++ js "?"));
                         (js "answer",
                          JString (js "Resposta baseada no conteúdo reescrito."))]])
       (own "faq"%string) (faq r)
  /\ cutOr 3 (JArray (realCaseStudies p)) (own "caseStudies"%string) (caseStudies r)
  /\ ownOr (JObject [(js "suggestedGraphics", JArray []);
                     (js "suggestedImages", JArray []);
                     (js "visualElements", JArray [])])
       (own "richContent"%string) (richContent r)
  /\ ownOr (JArray []) (own "citations"%string) (citations r)
  /\ ownOr (JArray []) (own "internalLinking"%string) (internalLinking r)
  /\ ownOr (JObject [(js "brands", JArray []); (js "people", JArray []);
                     (js "locations", JArray []); (js "concepts", JArray [])])
       (own "entities"%string) (entities r)
  /\ ownOr (JObject [(js "articleSchema", JBool true);
                     (js "authorSchema", JBool false);
                     (js "faqSchema", JBool false);
                     (js "organizationSchema", JBool false);
                     (js "reviewSchema", JBool false)])
       (own "schemaMarkup"%string) (schemaMarkup r)
  /\ cutText 155 (keyword ++ js " - resumo otimizado para SEO")
       (own "metaDescription"%string) (metaDescription r)
  /\ (exists number, keywordDensity r = number ++ js "%")
  /\ (readabilityScore r = js "Boa" \/ readabilityScore r = js "Regular").

(** The messages a rejection can carry: the three fixed ones, or the prefix
    of the [catch] block followed by the message of the cause. *)
Definition surfacedMessage (m : jsstring) : Prop :=
  m = keyRejected \/ m = quotaExceeded \/ m = rateLimited
  \/ exists cause, m = wrapped ++ cause.

Lemma surfaced_is_surfacedMessage (e : Thrown) : surfacedMessage (surfaced e).
Proof.
  unfold surfacedMessage, surfaced. destruct e as [message |].
  - destruct (includes message (js "API key")); [left; reflexivity |].
    destruct (includes message (js "quota")); [right; left; reflexivity |].
    destruct (includes message (js "rate limit")); [right; right; left; reflexivity |].
    right; right; right. now exists message.
  - right; right; right. now exists (js "Erro desconhecido").
Qed.

Lemma or_else_default_present (x d : JSValue) : present d -> present (or_else x d).
Proof. intros Hd. apply or_else_present. now right. Qed.

Lemma or_else_ownOr (own default : JSValue) :
  truthy default = true -> ownOr default own (or_else own default).
Proof.
  intros Hd. unfold ownOr, or_else. destruct (truthy own) eqn:Hown.
  - split; [exact Hown | left; now split].
  - split; [exact Hd | right; now split].
Qed.

Lemma optionalSlice_cutOr (n : nat) (callee : jsstring) (own out default : JSValue) :
  optionalSlice (S n) callee own = inr out ->
  truthy default = true ->
  cutOr (S n) default own (or_else out default).
Proof.
  intros Hout Hd. unfold optionalSlice in Hout. unfold cutOr.
  destruct own as [| | | | [| c s] | l |]; try discriminate; injection Hout as <-.
  - split; [exact Hd |]. right; right. split; [now left | reflexivity].
  - split; [exact Hd |]. right; right. split; [right; now left | reflexivity].
  - split; [exact Hd |]. right; right. split; [right; now right | reflexivity].
  - split; [reflexivity |]. right; left. exists c, s. split; reflexivity.
  - split; [reflexivity |]. left. exists l. split; reflexivity.
Qed.

Lemma default_cutOr (n : nat) (default : JSValue) :
  truthy default = true -> cutOr n default JUndefined default.
Proof.
  intros Hd. split; [exact Hd |]. right; right. split; [now left | reflexivity].
Qed.

Lemma default_ownOr (default : JSValue) :
  truthy default = true -> ownOr default JUndefined default.
Proof. intros Hd. split; [exact Hd |]. right. now split. Qed.

Lemma keyword_default_truthy (keyword : jsstring) :
  truthy (JString (js "Imagem sobre " ++ keyword)) = true
  /\ truthy (JString (keyword ++ js " - imagem ilustrativa")) = true.
Proof.
  split; [vm_compute; reflexivity |].
  destruct keyword; [vm_compute |]; reflexivity.
Qed.

Lemma fallbackDescription_not_empty (keyword : jsstring) :
  defaultMetaDescription keyword <> [].
Proof.
  unfold defaultMetaDescription. destruct keyword; [vm_compute | cbn]; discriminate.
Qed.

Lemma optionalSubstring_cutText (n : nat) (callee : jsstring) (own : JSValue)
    (description : option jsstring) (default : jsstring) :
  optionalSubstring (S n) callee own = inr description ->
  default <> [] ->
  cutText (S n) default own (string_or description default).
Proof.
  intros Hout Hd. unfold optionalSubstring in Hout. unfold cutText.
  destruct own as [| | | | [| c s] | |]; try discriminate; injection Hout as <-.
  - split; [exact Hd |]. right. split; [now left | reflexivity].
  - split; [exact Hd |]. right. split; [right; now left | reflexivity].
  - split; [exact Hd |]. right. split; [right; now right | reflexivity].
  - split; [discriminate |]. left. exists c, s. split; reflexivity.
Qed.

Lemma computed_strings_shape (occurrences words : nat) :
  (exists number, keywordDensity_of occurrences words = number ++ js "%")
  /\ (readabilityScore_of words = js "Boa" \/ readabilityScore_of words = js "Regular").
Proof.
  split.
  - unfold keywordDensity_of. destruct (0 <? words)%nat.
    + eexists. reflexivity.
    + exists (js "0"). vm_compute. reflexivity.
  - unfold readabilityScore_of. destruct (500 <? words)%nat; [left | right]; reflexivity.
Qed.

Lemma plainTextRecord_populated (p : Params) (content : jsstring) (k : nat) :
  populated p None (plainTextRecord p content k).
Proof.
  destruct (keyword_default_truthy (targetKeyword p)) as [Htitle Halt].
  destruct (computed_strings_shape k (wordCount_of content)) as (Hdensity & Hread).
  pose proof (fallbackDescription_not_empty (targetKeyword p)) as Hmeta.
  unfold populated.
  cbn [replyMember optionalMember nullish plainTextRecord helpfulnessScore qualityScore
       eatScore structureScore aiOptimizationScore featuredImage title altText keywords
       faq caseStudies richContent citations internalLinking entities schemaMarkup
       metaDescription keywordDensity readabilityScore].
  repeat (split; [first [ apply default_ownOr; first [exact Htitle | exact Halt | reflexivity]
                        | apply default_cutOr; reflexivity ] |]).
  split; [| split; [exact Hdensity | exact Hread]].
  split; [exact Hmeta |]. right. split; [now left | reflexivity].
Qed.

Lemma jsonRecord_populated (p : Params) (result : JSValue) (text : jsstring) (k : nat)
    (description : option jsstring) (questions studies : JSValue) :
  optionalSubstring 155 (js "result.metaDescription?.substring")
    (member result (js "metaDescription")) = inr description ->
  optionalSlice 8 (js "result.faq?.slice") (member result (js "faq")) = inr questions ->
  optionalSlice 3 (js "result.caseStudies?.slice") (member result (js "caseStudies"))
  = inr studies ->
  populated p (Some result) (jsonRecord p result text k description questions studies).
Proof.
  intros Hd Hq Hs.
  destruct (keyword_default_truthy (targetKeyword p)) as [Htitle Halt].
  destruct (computed_strings_shape k (wordCount_of text)) as (Hdensity & Hread).
  pose proof (fallbackDescription_not_empty (targetKeyword p)) as Hmeta.
  unfold populated.
  cbn [replyMember jsonRecord helpfulnessScore qualityScore
       eatScore structureScore aiOptimizationScore featuredImage title altText keywords
       faq caseStudies richContent citations internalLinking entities schemaMarkup
       metaDescription keywordDensity readabilityScore].
  repeat (split; [first [ apply or_else_ownOr; first [exact Htitle | exact Halt | reflexivity]
                        | apply (@optionalSlice_cutOr _ _ _ _ _ Hq); reflexivity
                        | apply (@optionalSlice_cutOr _ _ _ _ _ Hs); reflexivity ] |]).
  split; [| split; [exact Hdensity | exact Hread]].
  exact (@optionalSubstring_cutText _ _ _ _ _ Hd Hmeta).
Qed.

Lemma emptyReply_is_wrapped :
  surfaced (ErrorObject emptyReply) = wrapped ++ emptyReply.
Proof. vm_compute. reflexivity. Qed.

(** C1, as the code has it. Every call settles in one of two ways.  Either
    it resolves to a result whose required fields other than
    [rewrittenContent] are all present: each is truthy, and is the reply's
    own value for that field, taken over unchecked ([faq] cut to 8 and
    [caseStudies] to 3), or the complete default.  Or it is rejected with an
    Error whose message is one of the three fixed messages or the prefix of
    the [catch] block followed by the message of the cause.  With a usable
    key, a reply that is not empty and not a JSON text resolves to the plain
    text result, the reply as [rewrittenContent] and every other field the
    default, whenever the occurrences of the keyword in it are counted; and
    a reply that is [null] or empty is rejected with "Resposta vazia da API
    OpenAI" behind the prefix. *)
Theorem rewrite_settles (p : Params) (w : World) :
  ((exists r content others,
       rewriteContentWithSEO p w = Resolved r
       /\ create w = inr (Some content :: others)
       /\ populated p (JSON_parse content) r)
   \/ (exists m, rewriteContentWithSEO p w = Rejected m /\ surfacedMessage m))
  /\ (forall c content others occurrences,
        keyMissing (openaiApiKey p w) = false ->
        create w = inr (Some (c :: content) :: others) ->
        JSON_parse (c :: content) = None ->
        regexpMatches (toLowerCase (targetKeyword p)) (toLowerCase (c :: content))
        = inr occurrences ->
        rewriteContentWithSEO p w
        = Resolved (plainTextRecord p (c :: content) occurrences)
        /\ rewrittenContent (plainTextRecord p (c :: content) occurrences)
           = JString (c :: content)
        /\ populated p None (plainTextRecord p (c :: content) occurrences))
  /\ (forall content others,
        keyMissing (openaiApiKey p w) = false ->
        create w = inr (content :: others) ->
        given content = false ->
        rewriteContentWithSEO p w = Rejected (wrapped ++ emptyReply)).
Proof.
  split; [| split].
  - destruct (rewriteContentWithSEO p w) as [r | m] eqn:H.
    + left. exists r.
      apply resolved_inv in H as (_ & c & content & others & Hcreate & H).
      exists (c :: content), others. split; [reflexivity |]. split; [exact Hcreate |].
      destruct (JSON_parse (c :: content)) as [result |].
      * apply jsonResult_inv in H
          as (text & k & description & questions & studies & _ & _ & _ & Hd & Hq & Hs & ->).
        now apply jsonRecord_populated.
      * apply plainTextResult_inv in H as (k & _ & ->).
        apply plainTextRecord_populated.
    + right. exists m. split; [reflexivity |].
      unfold rewriteContentWithSEO in H.
      destruct (attempt p w) as [e | r]; [| discriminate].
      injection H as <-. apply surfaced_is_surfacedMessage.
  - intros c content others occurrences Hkey Hcreate Hparse Hcount.
    split; [| split; [reflexivity | apply plainTextRecord_populated]].
    unfold rewriteContentWithSEO, attempt.
    rewrite Hkey, Hcreate. cbn [bind ret replyContent]. rewrite Hparse.
    unfold plainTextResult, keywordOccurrences. rewrite Hcount. reflexivity.
  - intros content others Hkey Hcreate Hgiven.
    unfold rewriteContentWithSEO, attempt.
    rewrite Hkey, Hcreate. cbn.
    destruct content as [[| c s] |]; try discriminate; cbn;
      now rewrite <- emptyReply_is_wrapped.
Qed.

(** A reply that is no JSON text and a keyword that is not the source of a
    regular expression: the SyntaxError of [new RegExp] is thrown inside the
    [catch] of [JSON.parse], and the call is rejected with what the outer
    [catch] makes of its message. *)
Lemma invalid_pattern_rejects (p : Params) (w : World) (c : codeunit) (content : jsstring)
    (others : list (option jsstring)) (message : jsstring) :
  keyMissing (openaiApiKey p w) = false ->
  create w = inr (Some (c :: content) :: others) ->
  JSON_parse (c :: content) = None ->
  regexpMatches (toLowerCase (targetKeyword p)) (toLowerCase (c :: content)) = inl message ->
  rewriteContentWithSEO p w = Rejected (surfaced (ErrorObject message)).
Proof.
  intros Hkey Hcreate Hparse Hcount.
  unfold rewriteContentWithSEO, attempt.
  rewrite Hkey, Hcreate. cbn [bind ret replyContent]. rewrite Hparse.
  unfold plainTextResult, keywordOccurrences. rewrite Hcount. reflexivity.
Qed.


End Props.

(** ** The service at work *)

(** A call with a key and none of the optional parameters, and the world in
    which the endpoint answers with one choice. *)
Definition call (keyword : jsstring) : Params :=
  {| originalContent := js "Teste.";
     targetKeyword := keyword;
     keywordLink := None;
     companyName := None;
     authorName := None;
     authorDescription := None;
     apiKey := Some (js "sk-test");
     webSearchFunction := None |}.

Definition answers (content : jsstring) : World :=
  {| OPENAI_API_KEY := None; create := inr [Some content] |}.

(** The scenario of the specification: three words, each the keyword. *)
Example three_words_scenario :
  exists r,
    rewriteContentWithSEO (call (js "teste"))
      (answers (json_text "{'rewrittenContent':'Teste teste teste.','metaDescription':'desc'}"))
    = Resolved r
    /\ wordCount r = 3%Z /\ keywordDensity r = js "100.0%" /\ seoScore r = 40%Z
    /\ metaDescription r = js "desc"
    /\ authorBio r = JUndefined /\ ctaSection r = JUndefined.
Proof. eexists. split; [vm_compute; reflexivity |]. repeat split. Qed.

(** C1, the claim as worded fails: an empty reply is no JSON text, and the
    call is rejected instead of degrading to a result. *)
Lemma empty_reply_is_rejected :
  JSON_parse [] = None
  /\ rewriteContentWithSEO (call (js "teste")) (answers [])
     = Rejected (js "Erro no processamento do conteúdo: Resposta vazia da API OpenAI").
Proof. split; vm_compute; reflexivity. Qed.

(** C2, on the failing input: the keyword "node.js" and the reply "Guia de
    node-js", which is no JSON text.  The keyword stands nowhere in the
    text, so its literal occurrences are 0, the density "0.0%" and the
    score 10; the code hands the keyword to [new RegExp] as it is (lines 380
    and 437), the dot matches the hyphen, and the result has one
    occurrence: "33.3%" and 20. *)
Lemma unescaped_keyword_metrics :
  exists r,
    rewriteContentWithSEO (call (js "node.js")) (answers (js "Guia de node-js")) = Resolved r
    /\ rewrittenContent r = JString (js "Guia de node-js")
    /\ wordCount r = 3%Z
    /\ whitespaceTokens (js "Guia de node-js") = 3%nat
    /\ claimedOccurrences (js "node.js") (js "Guia de node-js") = 0%nat
    /\ keywordDensity r = js "33.3%"
    /\ claimedKeywordDensity (js "node.js") (js "Guia de node-js") = js "0.0%"
    /\ seoScore r = 20%Z
    /\ claimedSeoScore (js "node.js") (js "Guia de node-js") = 10%Z.
Proof. eexists. split; [vm_compute; reflexivity |]. repeat split. Qed.

(** The same with a keyword that is a dot alone: it stands nowhere in the
    text "a b"; as a regular expression it matches each of the three code
    units, and the result has 150.0% and 40. *)
Example keyword_is_a_pattern :
  exists r,
    rewriteContentWithSEO (call (js ".")) (answers (js "a b")) = Resolved r
    /\ rewrittenContent r = JString (js "a b")
    /\ keywordDensity r = js "150.0%"
    /\ claimedKeywordDensity (js ".") (js "a b") = js "0.0%"
    /\ seoScore r = 40%Z
    /\ claimedSeoScore (js ".") (js "a b") = 10%Z.
Proof. eexists. split; [vm_compute; reflexivity |]. repeat split. Qed.

(** The values of a reply are taken over as they are.  A [richContent] that
    is the number 1 is the [richContent] of the result, and has none of the
    three lists; and a reply without [rewrittenContent] gives a result
    without it. *)
Example reply_values_unchecked :
  (exists r,
     rewriteContentWithSEO (call (js "teste"))
       (answers (json_text "{'rewrittenContent':'Teste.','richContent':1}"))
     = Resolved r
     /\ richContent r = JNumber 1
     /\ member (richContent r) (js "suggestedGraphics") = JUndefined)
  /\ (exists r,
        rewriteContentWithSEO (call (js "teste")) (answers (json_text "{}")) = Resolved r
        /\ rewrittenContent r = JUndefined).
Proof.
  split; eexists; (split; [vm_compute; reflexivity |]); repeat split.
Qed.

(** C4, the claim as worded fails: without any key the message that
    reaches the caller is not the configuration message itself. *)
Lemma missing_key_not_verbatim :
  let p := {| originalContent := js "Teste."; targetKeyword := js "teste";
              keywordLink := None; companyName := None; authorName := None;
              authorDescription := None; apiKey := None; webSearchFunction := None |} in
  openaiApiKey p (answers (js "texto")) = None
  /\ rewriteContentWithSEO p (answers (js "texto"))
     = Rejected (js "Erro no processamento do conteúdo: Chave de API do OpenAI não configurada. Configure nas configurações da aplicação.")
  /\ rewriteContentWithSEO p (answers (js "texto")) <> Rejected notConfigured.
Proof.
  intros p. split; [reflexivity |].
  split; [vm_compute; reflexivity | vm_compute; discriminate].
Qed.

(** C6, the claim as worded fails: no author name and no company name are
    supplied, and the result has both sections, taken from the reply. *)
Lemma reply_sections_without_parameters :
  exists r,
    rewriteContentWithSEO (call (js "teste"))
      (answers (json_text "{'rewrittenContent':'Teste.','authorBio':'Bio','ctaSection':{'title':'T'}}"))
    = Resolved r
    /\ authorName (call (js "teste")) = None
    /\ companyName (call (js "teste")) = None
    /\ authorBio r = JString (js "Bio")
    /\ ctaSection r = JObject [(js "title", JString (js "T"))].
Proof. eexists. split; [vm_compute; reflexivity |]. repeat split. Qed.

(** C5, on the failing input: a keyword of 128 letters and a reply that is
    no JSON text; the default description is the keyword and 28 more code
    units, 156 in all. *)
Lemma long_keyword_description :
  exists r,
    rewriteContentWithSEO (call (repeat 97%N 128)) (answers (js "Texto simples.")) = Resolved r
    /\ metaDescription r = repeat 97%N 128 ++ js " - resumo otimizado para SEO"
    /\ List.length (metaDescription r) = 156%nat.
Proof. eexists. split; [vm_compute; reflexivity |]. split; reflexivity. Qed.

(** C7, on the failing input: the reply has an empty rewritten text; there
    is one word (the empty piece), and the density is 0.0%, with its
    fraction digit, and not 0%. *)
Lemma empty_text_density :
  exists r,
    rewriteContentWithSEO (call (js "teste")) (answers (json_text "{'rewrittenContent':''}"))
    = Resolved r
    /\ rewrittenContent r = JString []
    /\ wordCount r = 1%Z
    /\ keywordDensity r = js "0.0%"
    /\ keywordDensity r <> js "0%".
Proof. eexists. split; [vm_compute; reflexivity |]. repeat split. vm_compute. discriminate. Qed.

(** ** The theorems at concrete calls *)

(** A call with an author and a company, and a reply in plain text. *)
Definition signedCall : Params :=
  {| originalContent := js "Teste.";
     targetKeyword := js "teste";
     keywordLink := None;
     companyName := Some (js "Acme");
     authorName := Some (js "Ana");
     authorDescription := None;
     apiKey := Some (js "sk-test");
     webSearchFunction := None |}.

Lemma seoScore_in_range_witness :
  exists r,
    rewriteContentWithSEO (call (js "teste")) (answers (js "Texto simples sobre teste"))
    = Resolved r
    /\ (1 <= seoScore r <= 100)%Z.
Proof.
  eexists. split; [vm_compute; reflexivity |].
  apply (@seoScore_in_range fragmentEngine (call (js "teste"))
           (answers (js "Texto simples sobre teste"))).
  vm_compute. reflexivity.
Defined.

Lemma rewrite_settles_witness :
  JSON_parse (js "Texto simples sobre teste") = None
  /\ exists r,
       rewriteContentWithSEO (call (js "teste")) (answers (js "Texto simples sobre teste"))
       = Resolved r
       /\ rewrittenContent r = JString (js "Texto simples sobre teste")
       /\ populated (call (js "teste")) None r
       /\ richContent r = JObject [(js "suggestedGraphics", JArray []);
                                   (js "suggestedImages", JArray []);
                                   (js "visualElements", JArray [])]
       /\ faq r = JArray [JObject [(js "question", JString (js "O que é teste?"));
                                   (js "answer",
                                    JString (js "Resposta baseada no conteúdo reescrito."))]].
Proof.
  split; [vm_compute; reflexivity |].
  destruct (@rewrite_settles fragmentEngine (call (js "teste"))
              (answers (js "Texto simples sobre teste"))) as (_ & Hplain & _).
  destruct (Hplain 84%N (js "exto simples sobre teste") [] 1%nat)
    as (Hresult & Hcontent & Hpopulated).
  - reflexivity.
  - vm_compute. reflexivity.
  - vm_compute. reflexivity.
  - vm_compute. reflexivity.
  - eexists. split; [exact Hresult |].
    split; [vm_compute; reflexivity |].
    split; [exact Hpopulated |].
    split; vm_compute; reflexivity.
Defined.

Lemma plain_reply_defaults_witness :
  exists r,
    JSON_parse (js "Texto simples sobre teste") = None
    /\ rewriteContentWithSEO (call (js "teste")) (answers (js "Texto simples sobre teste"))
       = Resolved r
    /\ citations r = JArray []
    /\ internalLinking r = JArray []
    /\ richContent r = JObject [(js "suggestedGraphics", JArray []);
                                (js "suggestedImages", JArray []);
                                (js "visualElements", JArray [])]
    /\ schemaMarkup r = JObject [(js "articleSchema", JBool true);
                                 (js "authorSchema", JBool false);
                                 (js "faqSchema", JBool false);
                                 (js "organizationSchema", JBool false);
                                 (js "reviewSchema", JBool false)].
Proof.
  eexists. split; [vm_compute; reflexivity |].
  split; [vm_compute; reflexivity |].
  apply (@plain_reply_defaults fragmentEngine (call (js "teste"))
           (answers (js "Texto simples sobre teste")) _
           (js "Texto simples sobre teste") []).
  - reflexivity.
  - vm_compute. reflexivity.
  - vm_compute. reflexivity.
Defined.

Lemma metrics_recomputed_witness :
  exists r,
    rewriteContentWithSEO (call (js "teste"))
      (answers (json_text "{'rewrittenContent':'Teste teste teste.','wordCount':1200,'keywordDensity':'2.1%','seoScore':95}"))
    = Resolved r
    /\ exists text occurrences,
         rewrittenText (rewrittenContent r) = Some text
         /\ regexpMatches (toLowerCase (js "teste")) (toLowerCase text) = inr occurrences
         /\ wordCount r = Z.of_nat (wordCount_of text)
         /\ (trimmed text = true -> wordCount r = Z.of_nat (whitespaceTokens text))
         /\ keywordDensity r
            = toFixed1 (Number_of_Z (Z.of_nat occurrences)
                        / Number_of_Z (Z.of_nat (wordCount_of text)) * 100)%float ++ js "%"
         /\ seoScore r
            = Z.min 100
                (Z.max 1 (Z.of_nat occurrences * 10
                          + (if (300 <? wordCount_of text)%nat then 20 else 10))).
Proof.
  eexists. split; [vm_compute; reflexivity |].
  apply (@metrics_recomputed fragmentEngine (call (js "teste"))
           (answers (json_text "{'rewrittenContent':'Teste teste teste.','wordCount':1200,'keywordDensity':'2.1%','seoScore':95}"))).
  vm_compute. reflexivity.
Defined.

Lemma optional_sections_witness :
  exists r,
    rewriteContentWithSEO signedCall (answers (js "Texto simples sobre teste")) = Resolved r
    /\ (authorBio r <> JUndefined <-> given (authorName signedCall) = true)
    /\ (ctaSection r <> JUndefined <-> given (companyName signedCall) = true).
Proof.
  eexists. split; [vm_compute; reflexivity |].
  apply (@optional_sections fragmentEngine signedCall
           (answers (js "Texto simples sobre teste")) _
           (js "Texto simples sobre teste") []).
  - reflexivity.
  - vm_compute. reflexivity.
Defined.

Lemma missing_key_is_wrapped_witness :
  let p := {| originalContent := js "Teste."; targetKeyword := js "teste";
              keywordLink := None; companyName := None; authorName := None;
              authorDescription := None; apiKey := Some [];
              webSearchFunction := None |} in
  let w := {| OPENAI_API_KEY := Some (js "dummy-key");
              create := inr [Some (js "Texto simples")] |} in
  openaiApiKey p w = Some (js "dummy-key")
  /\ rewriteContentWithSEO p w = Rejected (wrapped ++ notConfigured).
Proof.
  intros p w. split; [reflexivity |].
  apply (@missing_key_is_wrapped fragmentEngine p w).
  right. right. reflexivity.
Defined.

End OpenAIProps.

(* ================================================================= *)
(** * Part VII: the other queries of the persistence adapter *)

From Stdlib Require Import Permutation Sorted.

Module StorageQueries.
Import Storage.

Section Queries.
Variable InsertConfig : Type.
Variable HistoryColumns : Type.

(** [orderBy(desc(rewriteHistory.createdAt))]: the rows newest first.  A row
    is put into the rows that follow it in the table, which are in order
    already, before the first one that is not newer (among rows of one time
    the order is the store's choice; here the order of the table). *)
Fixpoint place (x : RewriteHistory HistoryColumns)
    (ordered : list (RewriteHistory HistoryColumns)) : list (RewriteHistory HistoryColumns) :=
  match ordered with
  | [] => [x]
  | y :: rest =>
      if (createdAt y <=? createdAt x)%Z then x :: ordered else y :: place x rest
  end.

Definition newestFirst (rows : list (RewriteHistory HistoryColumns))
  : list (RewriteHistory HistoryColumns) :=
  fold_right place [] rows.

(** [getRewriteHistory(limit = 10)], for a limit that is a natural number
    ([None] when the caller leaves it out). *)
Definition getRewriteHistory (limit : option nat) (db : Db InsertConfig HistoryColumns)
  : list (RewriteHistory HistoryColumns) :=
  firstn (match limit with Some n => n | None => 10%nat end)
         (newestFirst (rewriteHistory db)).

(** A sequence of [saveRewriteHistory] calls, each with its record and its
    time. *)
Definition saveRewriteHistories (calls : list (HistoryData HistoryColumns * Date))
    (db : Db InsertConfig HistoryColumns) : Db InsertConfig HistoryColumns :=
  fold_left (fun d call => snd (saveRewriteHistory (fst call) (snd call) d)) calls db.

End Queries.

(** The [users] table: of a row the code names the columns [id] and
    [username]; the others are left open. *)
Section UsersTable.
Variable UserColumns : Type.

Record User := {
  user_id : Z;
  username : JS.jsstring;
  user_values : UserColumns
}.

(** [const [user] = await db.select().from(users).where(eq(users.id, id));
    return user || undefined]: the first row the store gives (here in the
    order of the table). *)
Definition getUser (id : Z) (users : list User) : option User :=
  hd_error (filter (fun u => (user_id u =? id)%Z) users).

Definition getUserByUsername (name : JS.jsstring) (users : list User) : option User :=
  hd_error (filter (fun u => JS.str_eqb (username u) name) users).

End UsersTable.

End StorageQueries.

(* ================================================================= *)
(** * Part VIII: properties of the other queries *)

Module StorageQueriesProps.
Import Storage StorageQueries.

Section Props.
Variable InsertConfig : Type.
Variable HistoryColumns : Type.

(** [a] is at least as new as [b]. *)
Definition notOlder (a b : RewriteHistory HistoryColumns) : Prop :=
  (createdAt b <= createdAt a)%Z.

(** ** [getConfig] *)

Lemma latest_none (rows : list (Config InsertConfig)) :
  latest rows = None <-> rows = [].
Proof.
  destruct rows as [| c rest]; cbn; [tauto |].
  split; [| discriminate].
  destruct (latest rest) as [d |]; [| discriminate].
  destruct (updatedAt c <? updatedAt d)%Z; discriminate.
Qed.

Lemma latest_greatest (rows : list (Config InsertConfig)) (c : Config InsertConfig) :
  latest rows = Some c ->
  In c rows /\ forall c', In c' rows -> (updatedAt c' <= updatedAt c)%Z.
Proof.
  revert c. induction rows as [| x rest IH]; intros c; cbn; [discriminate |].
  destruct (latest rest) as [d |] eqn:Hrest.
  - destruct (IH d eq_refl) as [Hin Hmax].
    destruct (updatedAt x <? updatedAt d)%Z eqn:Hlt; intros [= <-].
    + apply Z.ltb_lt in Hlt. split; [now right |].
      intros c' [<- | Hc']; [lia | now apply Hmax].
    + apply Z.ltb_ge in Hlt. split; [now left |].
      intros c' [<- | Hc']; [lia |]. specialize (Hmax c' Hc'). lia.
  - intros [= <-]. apply latest_none in Hrest. subst rest.
    split; [now left |]. intros c' [<- | []]. lia.
Qed.

(** X1. [getConfig] gives no row exactly when the table is empty, and otherwise
    a row of the table that no other row is newer than. *)
Theorem getConfig_most_recent (db : Db InsertConfig HistoryColumns) :
  (getConfig db = None <-> configs db = [])
  /\ (forall c, getConfig db = Some c ->
        In c (configs db)
        /\ forall c', In c' (configs db) -> (updatedAt c' <= updatedAt c)%Z).
Proof.
  unfold getConfig. split; [apply latest_none | apply latest_greatest].
Qed.

(** ** [getRewriteHistory] *)

Lemma place_permutation (x : RewriteHistory HistoryColumns) ordered :
  Permutation (place x ordered) (x :: ordered).
Proof.
  induction ordered as [| y rest IH]; cbn; [reflexivity |].
  destruct (createdAt y <=? createdAt x)%Z; [reflexivity |].
  rewrite IH. apply perm_swap.
Qed.

Lemma newestFirst_permutation (rows : list (RewriteHistory HistoryColumns)) :
  Permutation (newestFirst rows) rows.
Proof.
  induction rows as [| x rest IH]; cbn; [reflexivity |].
  rewrite place_permutation. now constructor.
Qed.

Lemma place_sorted (x : RewriteHistory HistoryColumns) ordered :
  StronglySorted notOlder ordered -> StronglySorted notOlder (place x ordered).
Proof.
  induction 1 as [| y rest Hrest IH Hy]; cbn.
  - constructor; constructor.
  - destruct (createdAt y <=? createdAt x)%Z eqn:Hle.
    + apply Z.leb_le in Hle. constructor; [now constructor |].
      constructor; [exact Hle |].
      rewrite Forall_forall in Hy |- *. intros z Hz.
      specialize (Hy z Hz). unfold notOlder in *. lia.
    + apply Z.leb_gt in Hle. constructor; [exact IH |].
      rewrite Forall_forall in Hy |- *. intros z Hz.
      apply (Permutation_in _ (place_permutation x rest)) in Hz.
      destruct Hz as [<- | Hz]; [unfold notOlder; lia | now apply Hy].
Qed.

Lemma newestFirst_sorted (rows : list (RewriteHistory HistoryColumns)) :
  StronglySorted notOlder (newestFirst rows).
Proof.
  induction rows as [| x rest IH]; cbn; [constructor | now apply place_sorted].
Qed.

Lemma sorted_app_inv (front back : list (RewriteHistory HistoryColumns)) :
  StronglySorted notOlder (front ++ back) ->
  StronglySorted notOlder front
  /\ forall a b, In a front -> In b back -> notOlder a b.
Proof.
  induction front as [| x front IH]; cbn; intros H.
  - split; [constructor | intros a b []].
  - inversion H as [| ? ? Hs Hx]; subst. destruct (IH Hs) as [Hfront Hcross].
    rewrite Forall_forall in Hx. split.
    + constructor; [exact Hfront |].
      rewrite Forall_forall. intros z Hz. apply Hx, in_or_app. now left.
    + intros a b [<- | Ha] Hb; [apply Hx, in_or_app; now right | now apply Hcross].
Qed.

(** X2. [getRewriteHistory(limit)] returns [limit] rows of the table (all of
    them when there are fewer), newest first, and no row it leaves out is
    newer than a row it returns. *)
Theorem getRewriteHistory_most_recent (limit : option nat)
    (db : Db InsertConfig HistoryColumns) :
  let n := match limit with Some n => n | None => 10%nat end in
  let found := getRewriteHistory limit db in
  List.length found = Nat.min n (List.length (rewriteHistory db))
  /\ StronglySorted notOlder found
  /\ exists others,
       Permutation (found ++ others) (rewriteHistory db)
       /\ forall a b, In a found -> In b others -> notOlder a b.
Proof.
  intros n found. subst found. unfold getRewriteHistory. fold n.
  set (ordered := newestFirst (rewriteHistory db)).
  assert (Hsorted : StronglySorted notOlder (firstn n ordered ++ skipn n ordered)).
  { rewrite firstn_skipn. apply newestFirst_sorted. }
  apply sorted_app_inv in Hsorted as [Hfront Hcross].
  split; [| split; [exact Hfront |]].
  - rewrite length_firstn. unfold ordered.
    now rewrite (Permutation_length (newestFirst_permutation (rewriteHistory db))).
  - exists (skipn n ordered). split; [| exact Hcross].
    rewrite firstn_skipn. apply newestFirst_permutation.
Qed.

(** [a] was created before [b]. *)
Definition older (a b : RewriteHistory HistoryColumns) : Prop :=
  (createdAt a < createdAt b)%Z.

Lemma place_oldest (x : RewriteHistory HistoryColumns) ordered :
  (forall y, In y ordered -> older x y) -> place x ordered = ordered ++ [x].
Proof.
  induction ordered as [| y rest IH]; cbn; intros Hall; [reflexivity |].
  assert (Hy : older x y) by (apply Hall; now left).
  unfold older in Hy. apply Z.leb_gt in Hy. rewrite Hy.
  f_equal. apply IH. intros z Hz. apply Hall. now right.
Qed.

Lemma newestFirst_of_increasing (rows : list (RewriteHistory HistoryColumns)) :
  StronglySorted older rows -> newestFirst rows = rev rows.
Proof.
  unfold newestFirst.
  induction 1 as [| x rest Hrest IH Hx]; cbn; [reflexivity |].
  rewrite IH. apply place_oldest.
  rewrite Forall_forall in Hx. intros y Hy. apply Hx. now apply in_rev.
Qed.

(** X3. When every row of the history was created after the rows before it (as
    when each insert is stamped by a clock that has moved on),
    [getRewriteHistory(limit)] returns the last [limit] rows inserted, the
    last one first. *)
Theorem getRewriteHistory_latest_inserts (limit : option nat)
    (db : Db InsertConfig HistoryColumns) :
  StronglySorted older (rewriteHistory db) ->
  getRewriteHistory limit db
  = firstn (match limit with Some n => n | None => 10%nat end) (rev (rewriteHistory db)).
Proof.
  intros Hincreasing. unfold getRewriteHistory.
  now rewrite newestFirst_of_increasing.
Qed.

(** ** [saveRewriteHistory] and [getStats] *)

Lemma total_app (xs ys : list Z) :
  StorageProps.total (xs ++ ys) = (StorageProps.total xs + StorageProps.total ys)%Z.
Proof.
  unfold StorageProps.total. induction xs as [| x xs IH]; cbn; [reflexivity |].
  rewrite IH. lia.
Qed.

(** What a sequence of saves leaves in the table: the rows that were there,
    then one row for each call, in the order of the calls, with the score,
    the word count and the other columns of its record and the time of the
    call. *)
Lemma history_after_saves (calls : list (HistoryData HistoryColumns * Date))
    (db : Db InsertConfig HistoryColumns) :
  exists saved,
    rewriteHistory (saveRewriteHistories calls db) = rewriteHistory db ++ saved
    /\ map (fun row => (seoScore row, wordCount row, history_values row, createdAt row)) saved
       = map (fun call => (data_seoScore (fst call), data_wordCount (fst call),
                           data_values (fst call), snd call)) calls.
Proof.
  unfold saveRewriteHistories. revert db.
  induction calls as [| [historyData now] calls IH]; intros db; cbn [fold_left fst snd].
  - exists []. split; [now rewrite app_nil_r | reflexivity].
  - destruct (IH (snd (saveRewriteHistory historyData now db))) as (saved & Hrows & Hvalues).
    exists (fst (saveRewriteHistory historyData now db) :: saved). split.
    + rewrite Hrows. cbn. now rewrite <- app_assoc.
    + cbn [map]. rewrite Hvalues. reflexivity.
Qed.

(** X4. After any sequence of [saveRewriteHistory] calls the table holds the
    rows it held before followed by one row for each call, in order, with
    the values of its record and the time of the call; [getStats] counts as
    many rewrites more as there were calls, and its total word count has
    grown by the sum of the word counts saved, each with its value and a
    missing one as 0. *)
Theorem saveRewriteHistory_grows_stats (calls : list (HistoryData HistoryColumns * Date))
    (db : Db InsertConfig HistoryColumns) :
  let after := saveRewriteHistories calls db in
  (exists saved,
     rewriteHistory after = rewriteHistory db ++ saved
     /\ map (fun row => (seoScore row, wordCount row, history_values row, createdAt row))
          saved
        = map (fun call => (data_seoScore (fst call), data_wordCount (fst call),
                            data_values (fst call), snd call)) calls)
  /\ totalRewrites (getStats after)
     = (totalRewrites (getStats db) + Z.of_nat (List.length calls))%Z
  /\ totalWordCount (getStats after)
     = (totalWordCount (getStats db)
        + StorageProps.total
            (map (fun call => match data_wordCount (fst call) with
                              | Some words => words
                              | None => 0%Z
                              end) calls))%Z.
Proof.
  intros after. subst after.
  destruct (history_after_saves calls db) as (saved & Hrows & Hvalues).
  split; [now exists saved |].
  assert (Hlength : List.length saved = List.length calls).
  { apply (f_equal (@List.length _)) in Hvalues. now rewrite !length_map in Hvalues. }
  assert (Hwords : map (fun row => or_zero (wordCount row)) saved
                   = map (fun call => match data_wordCount (fst call) with
                                      | Some words => words
                                      | None => 0%Z
                                      end) calls).
  { apply (f_equal (map (fun t => match snd (fst (fst t)) with
                                  | Some words => words
                                  | None => 0%Z
                                  end))) in Hvalues.
    rewrite !map_map in Hvalues. exact Hvalues. }
  unfold getStats. cbn [totalRewrites totalWordCount]. rewrite Hrows. split.
  - rewrite length_app, Hlength. lia.
  - rewrite !StorageProps.reduce_total, map_app, total_app, Hwords. lia.
Qed.

(** The two tables do not interfere: [saveConfig] changes nothing that
    [getStats] and [getRewriteHistory] read, and [saveRewriteHistory]
    nothing that [getConfig] reads. *)
Theorem tables_do_not_interfere (db : Db InsertConfig HistoryColumns) :
  (forall configData now,
      getStats (snd (saveConfig configData now db)) = getStats db
      /\ forall limit,
           getRewriteHistory limit (snd (saveConfig configData now db))
           = getRewriteHistory limit db)
  /\ (forall historyData now,
        getConfig (snd (saveRewriteHistory historyData now db)) = getConfig db).
Proof.
  split.
  - intros configData now. split; [reflexivity | intros limit; reflexivity].
  - intros historyData now. reflexivity.
Qed.

End Props.

(** ** The [users] table *)

Section UsersProps.
Variable UserColumns : Type.

Lemma str_eqb_eq (s t : JS.jsstring) : JS.str_eqb s t = true <-> s = t.
Proof.
  revert t. induction s as [| c s IH]; intros [| d t]; cbn; try (split; congruence).
  rewrite andb_true_iff, N.eqb_eq, IH. split.
  - intros [-> ->]. reflexivity.
  - intros [= -> ->]. split; reflexivity.
Qed.

Lemma first_match_spec (f : User UserColumns -> bool) (users : list (User UserColumns)) :
  (hd_error (filter f users) = None <-> forall u, In u users -> f u = false)
  /\ (forall u, hd_error (filter f users) = Some u ->
        f u = true
        /\ exists before after,
             users = before ++ u :: after /\ forall v, In v before -> f v = false).
Proof.
  induction users as [| x rest [IHnone IHsome]]; cbn.
  - split; [split; [intros _ u [] | reflexivity] | discriminate].
  - destruct (f x) eqn:Hx; cbn.
    + split.
      * split; [discriminate |]. intros H. specialize (H x (or_introl eq_refl)). congruence.
      * intros u [= <-]. split; [exact Hx |]. exists [], rest. split; [reflexivity |].
        intros v [].
    + split.
      * rewrite IHnone. split.
        -- intros H u [<- | Hu]; [exact Hx | now apply H].
        -- intros H u Hu. apply H. now right.
      * intros u Hu. destruct (IHsome u Hu) as (Hfu & before & after & -> & Hbefore).
        split; [exact Hfu |]. exists (x :: before), after. split; [reflexivity |].
        intros v [<- | Hv]; [exact Hx | now apply Hbefore].
Qed.

(** X5. [getUser] and [getUserByUsername] never fail on a key that is not in
    the table: they give no row exactly when no row has the id (the name),
    and otherwise a row of the table that has it. *)
Theorem user_lookups (users : list (User UserColumns)) :
  (forall id,
      (getUser id users = None <-> forall u, In u users -> user_id u <> id)
      /\ forall u, getUser id users = Some u -> In u users /\ user_id u = id)
  /\ (forall name,
        (getUserByUsername name users = None
         <-> forall u, In u users -> username u <> name)
        /\ forall u, getUserByUsername name users = Some u ->
             In u users /\ username u = name).
Proof.
  split.
  - intros id. unfold getUser.
    destruct (first_match_spec (fun u => (user_id u =? id)%Z) users) as [Hnone Hsome].
    split.
    + rewrite Hnone. split; intros H u Hu; specialize (H u Hu); now apply Z.eqb_neq.
    + intros u Hu. destruct (Hsome u Hu) as (Hid & before & after & -> & _).
      split; [apply in_elt | now apply Z.eqb_eq].
  - intros name. unfold getUserByUsername.
    destruct (first_match_spec (fun u => JS.str_eqb (username u) name) users)
      as [Hnone Hsome].
    assert (Hneq : forall s, JS.str_eqb s name = false <-> s <> name).
    { intros s. rewrite <- str_eqb_eq. destruct (JS.str_eqb s name); split; congruence. }
    split.
    + rewrite Hnone. split; intros H u Hu; specialize (H u Hu); now apply Hneq.
    + intros u Hu. destruct (Hsome u Hu) as (Hname & before & after & -> & _).
      split; [apply in_elt | now apply str_eqb_eq].
Qed.

End UsersProps.

(** Five entries saved one after the other at the times 1 to 5, and the two
    most recent of them asked for: the fifth, then the fourth. *)
Definition fiveSaved : Db unit unit :=
  saveRewriteHistories
    (map (fun k => ({| data_seoScore := Some (10 * k)%Z; data_wordCount := Some (100 * k)%Z;
                       data_values := tt |}, k))
         [1; 2; 3; 4; 5]%Z)
    {| configs := []; rewriteHistory := []; configs_id_seq := 1; rewriteHistory_id_seq := 1 |}.

Lemma getRewriteHistory_latest_inserts_witness :
  StronglySorted (@older unit) (rewriteHistory fiveSaved)
  /\ map (@createdAt unit) (getRewriteHistory (Some 2%nat) fiveSaved) = [5; 4]%Z.
Proof.
  assert (H : StronglySorted (@older unit) (rewriteHistory fiveSaved)).
  { cbn. repeat (constructor; [| repeat constructor; unfold older; cbn; lia]). constructor. }
  split; [exact H |].
  rewrite (@getRewriteHistory_latest_inserts unit unit (Some 2%nat) fiveSaved H).
  reflexivity.
Defined.

(** ** [getStats] over scores within bounds *)

Section StatsBounds.
Variable InsertConfig : Type.
Variable HistoryColumns : Type.

Lemma total_between (lo hi : Z) (xs : list Z) :
  Forall (fun x => (lo <= x <= hi)%Z) xs ->
  (Z.of_nat (List.length xs) * lo <= StorageProps.total xs
   <= Z.of_nat (List.length xs) * hi)%Z.
Proof.
  unfold StorageProps.total.
  induction 1 as [| x rest Hx Hrest IH]; cbn [fold_right List.length]; [lia |].
  rewrite Nat2Z.inj_succ. lia.
Qed.

(** X6. When the history is not empty and every score in it (a missing one as
    0) lies between [lo] and [hi], so does [avgSeoScore]: with the scores
    the rewrite service computes, the average is from 1 to 100 as well. *)
Theorem avgSeoScore_within (lo hi : Z) (db : Db InsertConfig HistoryColumns) :
  rewriteHistory db <> [] ->
  Forall (fun item => (lo <= or_zero (seoScore item) <= hi)%Z) (rewriteHistory db) ->
  (lo <= avgSeoScore (getStats db) <= hi)%Z.
Proof.
  intros Hne Hall.
  pose proof (StorageProps.avgSeoScore_nearest db Hne) as Havg.
  assert (Hsum := @total_between lo hi
                    (map (fun item => or_zero (seoScore item)) (rewriteHistory db))).
  rewrite length_map in Hsum. rewrite Forall_map in Hsum. specialize (Hsum Hall).
  assert (Hn : (0 < Z.of_nat (List.length (rewriteHistory db)))%Z).
  { destruct (rewriteHistory db); [congruence | cbn; lia]. }
  cbv zeta in Havg. nia.
Qed.

End StatsBounds.

Lemma avgSeoScore_within_witness :
  rewriteHistory fiveSaved <> []
  /\ (10 <= avgSeoScore (getStats fiveSaved) <= 50)%Z.
Proof.
  assert (Hne : rewriteHistory fiveSaved <> []) by (vm_compute; discriminate).
  split; [exact Hne |].
  apply (@avgSeoScore_within unit unit 10 50 fiveSaved Hne).
  vm_compute. repeat constructor; discriminate.
Defined.

(** Two saves into the history of three entries, the first without a word
    count: five rewrites, and 250 words more than the 2100 there were. *)
Definition twoMoreSaved : Db unit unit :=
  saveRewriteHistories
    [({| data_seoScore := Some 70%Z; data_wordCount := None; data_values := tt |}, 10%Z);
     ({| data_seoScore := Some 80%Z; data_wordCount := Some 250%Z; data_values := tt |},
      11%Z)]
    StorageProps.threeRewrites.

Lemma saveRewriteHistory_grows_stats_witness :
  totalRewrites (getStats twoMoreSaved) = 5%Z
  /\ totalWordCount (getStats twoMoreSaved) = 2350%Z
  /\ map (fun row => (seoScore row, wordCount row, createdAt row))
       (rewriteHistory twoMoreSaved)
     = [(Some 40, Some 900, 1); (None, Some 1200, 2); (Some 95, None, 3);
        (Some 70, None, 10); (Some 80, Some 250, 11)]%Z.
Proof.
  destruct (@saveRewriteHistory_grows_stats unit unit
              [({| data_seoScore := Some 70%Z; data_wordCount := None;
                   data_values := tt |}, 10%Z);
               ({| data_seoScore := Some 80%Z; data_wordCount := Some 250%Z;
                   data_values := tt |}, 11%Z)]
              StorageProps.threeRewrites)
    as (_ & Hcount & Hwords).
  split; [exact Hcount |]. split; [exact Hwords | reflexivity].
Defined.

End StorageQueriesProps.

(* ================================================================= *)
(** * Part IX: more of the OpenAI service *)

Module OpenAIMore.
Import JS OpenAI.

(** The parameters of a call with another search function. *)
Definition withSearch (p : Params) (search : option (Thrown + list JSValue)) : Params :=
  {| originalContent := originalContent p;
     targetKeyword := targetKeyword p;
     keywordLink := keywordLink p;
     companyName := companyName p;
     authorName := authorName p;
     authorDescription := authorDescription p;
     apiKey := apiKey p;
     webSearchFunction := search |}.

(** The shapes of a reply value with which lines 434 to 488 run through:
    [rewrittenContent] falsy or a string (it is split), [metaDescription]
    absent, [null] or a string (it is cut with [substring]), [faq] and
    [caseStudies] absent, [null], an array or a string (they are cut with
    [slice]). *)
Definition falsyOrString (v : JSValue) : bool :=
  match v with
  | JString _ => true
  | _ => negb (truthy v)
  end.

Definition nullishOrString (v : JSValue) : bool :=
  match v with
  | JUndefined | JNull | JString _ => true
  | _ => false
  end.

Definition nullishOrSliceable (v : JSValue) : bool :=
  match v with
  | JUndefined | JNull | JString _ | JArray _ => true
  | _ => false
  end.

Definition wellShaped (result : JSValue) : bool :=
  negb (nullish result)
  && falsyOrString (member result (js "rewrittenContent"))
  && nullishOrString (member result (js "metaDescription"))
  && nullishOrSliceable (member result (js "faq"))
  && nullishOrSliceable (member result (js "caseStudies")).

(** The rewritten text of line 435 for a reply value whose
    [rewrittenContent] is falsy or a string: [result.rewrittenContent || ""]. *)
Definition rewrittenTextOf (result : JSValue) : jsstring :=
  match member result (js "rewrittenContent") with
  | JString s => s
  | _ => []
  end.

Section Service.
Context {E : Engine}.

(** Line 126: the domain handed to [generateValidInternalLinks],
    [companyName ? `${companyName.toLowerCase().replace(/\s+/g, '')}.com.br`
    : 'exemplo.com.br']. Replacing every run of white space by the empty
    string leaves the code units that are no white space. *)
Definition internalLinksDomain (p : Params) : jsstring :=
  if given (companyName p)
  then filter (fun c => negb (isWhiteSpace c)) (toLowerCase (interpolate (companyName p)))
       ++ js ".com.br"
  else js "exemplo.com.br".

End Service.

End OpenAIMore.

(* ================================================================= *)
(** * Part X: more properties of the OpenAI service *)

Module OpenAIMoreProps.
Import JS OpenAI OpenAIProps OpenAIMore.

Section Props.
Context {E : Engine}.

(** ** The metrics *)

(** Each path computes the four metric fields from one text and one count
    of occurrences. *)
Lemma resolved_readability (p : Params) (w : World) (r : SEORewriteResult) :
  rewriteContentWithSEO p w = Resolved r ->
  exists text occurrences,
    wordCount r = Z.of_nat (wordCount_of text)
    /\ seoScore r = seoScore_of occurrences (wordCount_of text)
    /\ readabilityScore r = readabilityScore_of (wordCount_of text).
Proof.
  intros H. apply resolved_inv in H as (_ & c & content & others & _ & H).
  destruct (JSON_parse (c :: content)) as [result |].
  - apply jsonResult_inv in H
      as (text & k & description & questions & studies & _ & _ & _ & _ & _ & _ & ->).
    exists text, k. repeat split.
  - apply plainTextResult_inv in H as (k & _ & ->).
    exists (c :: content), k. repeat split.
Qed.

(** X7. The word count of a result is never 0, its SEO score is a multiple of
    10 from 10 to 100 (so the lower bound 1 of the clamp is never the
    score), and the readability is "Boa" exactly when there are more than
    500 words, and "Regular" otherwise. *)
Theorem metric_ranges (p : Params) (w : World) (r : SEORewriteResult) :
  rewriteContentWithSEO p w = Resolved r ->
  (1 <= wordCount r)%Z
  /\ (10 <= seoScore r <= 100)%Z
  /\ (seoScore r mod 10 = 0)%Z
  /\ (readabilityScore r = js "Boa" <-> (500 < wordCount r)%Z)
  /\ (readabilityScore r = js "Regular" <-> (wordCount r <= 500)%Z).
Proof.
  intros H. apply resolved_readability in H as (text & k & -> & -> & ->).
  pose proof (wordCount_of_positive text) as Hpos. apply Nat.ltb_lt in Hpos.
  unfold seoScore_of, readabilityScore_of.
  assert (Hdiff : js "Boa" <> js "Regular") by (vm_compute; discriminate).
  split; [lia |]. split; [destruct (300 <? wordCount_of text)%nat; lia |].
  split.
  - destruct (300 <? wordCount_of text)%nat.
    + destruct (Z.le_gt_cases 8 (Z.of_nat k)) as [Hk | Hk].
      * rewrite Z.max_r, Z.min_l by lia. reflexivity.
      * rewrite Z.max_r, Z.min_r by lia.
        replace (Z.of_nat k * 10 + 20)%Z with ((Z.of_nat k + 2) * 10)%Z by lia.
        apply Z.mod_mul. lia.
    + destruct (Z.le_gt_cases 9 (Z.of_nat k)) as [Hk | Hk].
      * rewrite Z.max_r, Z.min_l by lia. reflexivity.
      * rewrite Z.max_r, Z.min_r by lia.
        replace (Z.of_nat k * 10 + 10)%Z with ((Z.of_nat k + 1) * 10)%Z by lia.
        apply Z.mod_mul. lia.
  - destruct (500 <? wordCount_of text)%nat eqn:Hwords.
    + apply Nat.ltb_lt in Hwords. split; split.
      * intros _. lia.
      * reflexivity.
      * intros Habs. now destruct (Hdiff Habs).
      * intros Hle. lia.
    + apply Nat.ltb_ge in Hwords. split; split.
      * intros Habs. symmetry in Habs. now destruct (Hdiff Habs).
      * intros Hlt. lia.
      * intros _. lia.
      * reflexivity.
Qed.

(** X8. The word count against the whitespace tokens of the rewritten text: one
    more when the text is empty or begins with white space, and one more
    when it ends with white space. *)
Theorem wordCount_against_tokens (p : Params) (w : World) (r : SEORewriteResult) :
  rewriteContentWithSEO p w = Resolved r ->
  exists text,
    rewrittenText (rewrittenContent r) = Some text
    /\ wordCount r
       = Z.of_nat
           (whitespaceTokens text
            + (match text with
               | [] => 1
               | c :: _ => if isWhiteSpace c then 1 else 0
               end)
            + (if ends_ws false text then 1 else 0)).
Proof.
  intros H. apply resolved_metrics in H as (text & k & Htext & _ & -> & _).
  exists text. split; [exact Htext |]. f_equal.
  unfold wordCount_of, split_ws, whitespaceTokens.
  destruct text as [| c s]; [reflexivity |].
  cbn. destruct (isWhiteSpace c) eqn:Hc.
  - destruct (split_ws_pieces s []) as [Hws _]. cbn. rewrite Hws. lia.
  - destruct (split_ws_pieces s [c]) as [_ Hword]. rewrite Hword. lia.
Qed.
(** ** The fields taken from the reply *)

Lemma or_else_truthy (x d : JSValue) : truthy d = true -> truthy (or_else x d) = true.
Proof. intros Hd. unfold or_else. destruct (truthy x) eqn:Hx; assumption. Qed.

Lemma defaultMetaDescription_not_empty (keyword : jsstring) :
  defaultMetaDescription keyword <> [].
Proof.
  unfold defaultMetaDescription. destruct keyword; [vm_compute | cbn]; discriminate.
Qed.

Lemma string_or_not_empty (a : option jsstring) (d : jsstring) :
  d <> [] -> string_or a d <> [].
Proof. intros Hd. destruct a as [[| c s] |]; cbn; [exact Hd | discriminate | exact Hd]. Qed.

(** X9. A falsy value of the reply never reaches the result through a field
    that has a default: the five scores, the three fields of the featured
    image, [faq], [caseStudies], [richContent], [citations],
    [internalLinking], [entities] and [schemaMarkup] of every result are
    truthy (a score of 0 in the reply is replaced by the default), and the
    meta description is not empty. *)
Theorem defaulted_fields_truthy (p : Params) (w : World) (r : SEORewriteResult) :
  rewriteContentWithSEO p w = Resolved r ->
  truthy (helpfulnessScore r) = true /\ truthy (qualityScore r) = true
  /\ truthy (eatScore r) = true /\ truthy (structureScore r) = true
  /\ truthy (aiOptimizationScore r) = true
  /\ truthy (title (featuredImage r)) = true /\ truthy (altText (featuredImage r)) = true
  /\ truthy (keywords (featuredImage r)) = true
  /\ truthy (faq r) = true /\ truthy (caseStudies r) = true
  /\ truthy (richContent r) = true /\ truthy (citations r) = true
  /\ truthy (internalLinking r) = true /\ truthy (entities r) = true
  /\ truthy (schemaMarkup r) = true
  /\ metaDescription r <> [].
Proof.
  intros H.
  assert (Htitle : truthy (defaultFeaturedTitle (targetKeyword p)) = true)
    by (vm_compute; reflexivity).
  assert (Halt : truthy (defaultFeaturedAltText (targetKeyword p)) = true).
  { unfold defaultFeaturedAltText. destruct (targetKeyword p); [vm_compute |]; reflexivity. }
  apply resolved_inv in H as (_ & c & content & others & _ & H).
  destruct (JSON_parse (c :: content)) as [result |].
  - apply jsonResult_inv in H
      as (text & k & description & questions & studies & _ & _ & _ & _ & _ & _ & ->).
    cbn. repeat split; try (apply or_else_truthy; first [exact Htitle | exact Halt | reflexivity]).
    apply string_or_not_empty, defaultMetaDescription_not_empty.
  - apply plainTextResult_inv in H as (k & _ & ->). cbn.
    repeat split; try first [exact Htitle | exact Halt | reflexivity].
    apply defaultMetaDescription_not_empty.
Qed.

Lemma string_or_length (a : option jsstring) (d : jsstring) (n : nat) :
  (forall s, a = Some s -> (List.length s <= n)%nat) ->
  (List.length (string_or a d) <= Nat.max n (List.length d))%nat.
Proof.
  intros Ha. destruct a as [[| c s] |]; cbn; try lia.
  specialize (Ha (c :: s) eq_refl). cbn in Ha. lia.
Qed.

Lemma defaultMetaDescription_length (keyword : jsstring) :
  List.length (defaultMetaDescription keyword) = (List.length keyword + 28)%nat.
Proof. unfold defaultMetaDescription. rewrite length_app. reflexivity. Qed.

(** X10. The meta description of a result is the first 155 code units of the
    reply's [metaDescription] when that is a string that is not empty, and
    the default made from the keyword in every other case (a reply that is
    no JSON text, or that has no such string). *)
Theorem metaDescription_source (p : Params) (w : World) (r : SEORewriteResult)
    (content : jsstring) (others : list (option jsstring)) :
  create w = inr (Some content :: others) ->
  rewriteContentWithSEO p w = Resolved r ->
  metaDescription r
  = match JSON_parse content with
    | Some result =>
        match member result (js "metaDescription") with
        | JString (c :: s) => firstn 155 (c :: s)
        | _ => targetKeyword p ++ js " - resumo otimizado para SEO"
        end
    | None => targetKeyword p ++ js " - resumo otimizado para SEO"
    end.
Proof.
  intros Hcreate H.
  apply resolved_inv in H as (_ & c & content' & others' & Hcreate' & H).
  rewrite Hcreate in Hcreate'. injection Hcreate' as -> ->.
  destruct (JSON_parse (c :: content')) as [result |].
  - apply jsonResult_inv in H
      as (text & k & description & questions & studies & _ & _ & _ & Hd & _ & _ & ->).
    cbn. unfold optionalSubstring in Hd.
    destruct (member result (js "metaDescription")) as [| | | | [| d s] | |];
      try discriminate; injection Hd as <-; reflexivity.
  - apply plainTextResult_inv in H as (k & _ & ->). reflexivity.
Qed.

(** X11. The meta description has at most 155 code units, or the length of the
    keyword and 28 more: it stays within 155 whenever the keyword has at
    most 127. *)
Theorem metaDescription_bound (p : Params) (w : World) (r : SEORewriteResult) :
  rewriteContentWithSEO p w = Resolved r ->
  (List.length (metaDescription r) <= Nat.max 155 (List.length (targetKeyword p) + 28))%nat
  /\ ((List.length (targetKeyword p) <= 127)%nat ->
      (List.length (metaDescription r) <= 155)%nat).
Proof.
  intros H.
  assert (Hbound : (List.length (metaDescription r)
                    <= Nat.max 155 (List.length (targetKeyword p) + 28))%nat).
  { rewrite <- defaultMetaDescription_length.
    apply resolved_inv in H as (_ & c & content & others & _ & H).
    destruct (JSON_parse (c :: content)) as [result |].
    - apply jsonResult_inv in H
        as (text & k & description & questions & studies & _ & _ & _ & Hd & _ & _ & ->).
      cbn [metaDescription jsonRecord].
      apply string_or_length. intros s ->. unfold optionalSubstring in Hd.
      destruct (member result (js "metaDescription")) as [| | | | d | |];
        try discriminate.
      pose proof (firstn_le_length 155 d) as Hlen. injection Hd as <-. exact Hlen.
    - apply plainTextResult_inv in H as (k & _ & ->).
      cbn [metaDescription plainTextRecord]. lia. }
  split; [exact Hbound | lia].
Qed.

(** X12. [faq] is an array of at most 8 elements or (when the reply has a string
    there) a string of 1 to 8 code units; [caseStudies] is an array of at
    most 3 elements, the case studies of the lookup, or a string of 1 to 3
    code units. *)
Theorem faq_and_caseStudies_cut (p : Params) (w : World) (r : SEORewriteResult) :
  rewriteContentWithSEO p w = Resolved r ->
  ((exists l, faq r = JArray l /\ (List.length l <= 8)%nat)
   \/ (exists s, faq r = JString s /\ (1 <= List.length s <= 8)%nat))
  /\ ((exists l, caseStudies r = JArray l
                 /\ ((List.length l <= 3)%nat \/ l = realCaseStudies p))
      \/ (exists s, caseStudies r = JString s /\ (1 <= List.length s <= 3)%nat)).
Proof.
  intros H.
  assert (Hcut : forall n callee v d out,
             optionalSlice n callee v = inr out ->
             or_else out (JArray d) = JArray d
             \/ (exists l, or_else out (JArray d) = JArray l /\ (List.length l <= n)%nat)
             \/ (exists s, or_else out (JArray d) = JString s
                           /\ (1 <= List.length s <= n)%nat)).
  { intros n callee v d out Hout. unfold optionalSlice in Hout.
    destruct v as [| | | | s | l |]; try discriminate; injection Hout as <-.
    - now left.
    - now left.
    - unfold slice0. pose proof (firstn_le_length n s) as Hs.
      destruct (firstn n s) as [| c t] eqn:Hfirst; [now left |].
      right; right. exists (c :: t). split; [reflexivity |]. cbn in *. lia.
    - right; left. exists (slice0 n l). split; [reflexivity |].
      apply firstn_le_length. }
  apply resolved_inv in H as (_ & c & content & others & _ & H).
  destruct (JSON_parse (c :: content)) as [result |].
  - apply jsonResult_inv in H
      as (text & k & description & questions & studies & _ & _ & _ & _ & Hq & Hs & ->).
    cbn. split.
    + destruct (Hcut _ _ _ [JObject [(js "question",
                                      JString (js "O que é " ++ targetKeyword p ++ js "?"));
                                     (js "answer",
                                      JString (js "Resposta baseada no conteúdo reescrito."))]]
                  _ Hq) as [Hd | [Hl | Hstr]].
      * left. eexists. split; [exact Hd | cbn; lia].
      * now left.
      * now right.
    + destruct (Hcut _ _ _ (realCaseStudies p) _ Hs) as [Hd | [(l & Hl & Hlen) | Hstr]].
      * left. eexists. split; [exact Hd | now right].
      * left. exists l. split; [exact Hl | now left].
      * now right.
  - apply plainTextResult_inv in H as (k & _ & ->). cbn. split; left.
    + eexists. split; [reflexivity | cbn; lia].
    + eexists. split; [reflexivity | now right].
Qed.

(** ** Replies that are JSON texts *)

Lemma wellShaped_text (v : JSValue) :
  falsyOrString v = true ->
  or_else v (JString []) = JString (match v with JString s => s | _ => [] end).
Proof.
  unfold or_else. destruct v as [| | b | x | [| c s] | l | ms]; cbn; try reflexivity.
  - destruct b; [discriminate | reflexivity].
  - destruct (negb (x =? 0)%float && (x =? x)%float); [discriminate | reflexivity].
  - discriminate.
  - discriminate.
Qed.

Lemma rewrittenText_falsyOrString (v : JSValue) (text : jsstring) :
  rewrittenText v = Some text -> falsyOrString v = true.
Proof.
  unfold rewrittenText, or_else.
  destruct v as [| | b | x | s | l | ms]; cbn; try reflexivity; try discriminate.
  - destruct b; [discriminate | reflexivity].
  - destruct (negb (x =? 0)%float && (x =? x)%float); [discriminate | reflexivity].
Qed.

(** X13. A reply that is a JSON text is not always turned into a result.  With a
    usable key the call resolves exactly when the reply's value is not
    [null], its [rewrittenContent] is falsy or a string, its
    [metaDescription] is absent, [null] or a string, its [faq] and
    [caseStudies] are absent, [null], arrays or strings, and the keyword is
    the source of a regular expression; any other JSON reply is rejected.
    When it resolves, [rewrittenContent] is the reply's own value, which is
    [undefined] when the reply has none. *)
Theorem json_reply_shape (p : Params) (w : World) (c : codeunit) (content : jsstring)
    (others : list (option jsstring)) (result : JSValue) :
  keyMissing (openaiApiKey p w) = false ->
  create w = inr (Some (c :: content) :: others) ->
  JSON_parse (c :: content) = Some result ->
  ((exists r, rewriteContentWithSEO p w = Resolved r)
   <-> wellShaped result = true
       /\ exists occurrences,
            regexpMatches (toLowerCase (targetKeyword p))
              (toLowerCase (rewrittenTextOf result)) = inr occurrences)
  /\ (forall r, rewriteContentWithSEO p w = Resolved r ->
        rewrittenContent r = member result (js "rewrittenContent"))
  /\ ((forall r, rewriteContentWithSEO p w <> Resolved r) ->
      exists m, rewriteContentWithSEO p w = Rejected m).
Proof.
  intros Hkey Hcreate Hparse.
  assert (Hrun : rewriteContentWithSEO p w
                 = match jsonResult p result with
                   | inr r => Resolved r
                   | inl e => Rejected (surfaced e)
                   end).
  { unfold rewriteContentWithSEO, attempt. rewrite Hkey, Hcreate. cbn [bind ret replyContent].
    rewrite Hparse. reflexivity. }
  split; [| split].
  - split.
    + intros [r Hr]. rewrite Hrun in Hr.
      destruct (jsonResult p result) as [e | r'] eqn:Hjson; [discriminate |].
      apply jsonResult_inv in Hjson
        as (text & k & description & questions & studies
            & Hnull & Htext & Hk & Hd & Hq & Hs & _).
      pose proof (rewrittenText_falsyOrString _ Htext) as Hfalsy.
      split.
      * unfold wellShaped. rewrite Hnull, Hfalsy. cbn [negb andb].
        unfold optionalSubstring in Hd. unfold optionalSlice in Hq, Hs.
        destruct (member result (js "metaDescription")); try discriminate;
          destruct (member result (js "faq")); try discriminate;
          destruct (member result (js "caseStudies")); try discriminate; reflexivity.
      * exists k. unfold rewrittenTextOf.
        unfold rewrittenText in Htext. rewrite (wellShaped_text _ Hfalsy) in Htext.
        injection Htext as <-. exact Hk.
    + intros [Hshape [k Hk]]. unfold wellShaped in Hshape.
      repeat (apply andb_prop in Hshape as [Hshape ?]).
      apply negb_true_iff in Hshape.
      rewrite Hrun. unfold jsonResult, read. rewrite Hshape. cbn [bind ret].
      rewrite wellShaped_text by assumption. fold (rewrittenTextOf result).
      cbn [splitOf bind ret]. unfold keywordOccurrences. rewrite Hk. cbn [bind ret].
      unfold optionalSubstring, optionalSlice.
      destruct (member result (js "metaDescription")); try discriminate;
        destruct (member result (js "faq")); try discriminate;
        destruct (member result (js "caseStudies")); try discriminate;
        cbn [bind ret]; eexists; reflexivity.
  - intros r Hr. rewrite Hrun in Hr.
    destruct (jsonResult p result) as [e | r'] eqn:Hjson; [discriminate |].
    injection Hr as <-.
    apply jsonResult_inv in Hjson
      as (text & k & description & questions & studies & _ & _ & _ & _ & _ & _ & ->).
    reflexivity.
  - intros Hnot. destruct (rewriteContentWithSEO p w) as [r | m].
    + now destruct (Hnot r).
    + now exists m.
Qed.

(** X14. The case studies of a result are those of the reply, cut to three, when
    the reply has an array (or a string that is not empty) there, and in
    every other case the ones the lookup found: none without a search
    function or when the lookup threw. *)
Theorem caseStudies_source (p : Params) (w : World) (r : SEORewriteResult)
    (content : jsstring) (others : list (option jsstring)) :
  create w = inr (Some content :: others) ->
  rewriteContentWithSEO p w = Resolved r ->
  let found := match webSearchFunction p with
               | Some (inr studies) => studies
               | Some (inl _) | None => []
               end in
  caseStudies r
  = match JSON_parse content with
    | Some result =>
        match member result (js "caseStudies") with
        | JArray l => JArray (firstn 3 l)
        | JString (c :: s) => JString (firstn 3 (c :: s))
        | _ => JArray found
        end
    | None => JArray found
    end.
Proof.
  intros Hcreate H found.
  assert (Hfound : realCaseStudies p = found).
  { unfold realCaseStudies, found. destruct (webSearchFunction p) as [[e | l] |]; reflexivity. }
  apply resolved_inv in H as (_ & c & content' & others' & Hcreate' & H).
  rewrite Hcreate in Hcreate'. injection Hcreate' as -> ->.
  destruct (JSON_parse (c :: content')) as [result |].
  - apply jsonResult_inv in H
      as (text & k & description & questions & studies & _ & _ & _ & _ & _ & Hs & ->).
    cbn [caseStudies jsonRecord]. rewrite Hfound. unfold optionalSlice in Hs.
    destruct (member result (js "caseStudies")) as [| | | | [| d s] | |];
      try discriminate; injection Hs as <-; reflexivity.
  - apply plainTextResult_inv in H as (k & _ & ->).
    cbn [caseStudies plainTextRecord]. now rewrite Hfound.
Qed.

(** ** Failures of the endpoint and of the lookup *)

(** X15. With a usable key, a call that the endpoint rejects is rejected, and the
    message depends on the endpoint's error alone: the first of "API key",
    "quota" and "rate limit" that its message includes selects one of the
    three fixed messages; a message with none of them is passed on behind
    the prefix; what is thrown is no Error: "Erro desconhecido". *)
Theorem endpoint_failure_surfaced (p : Params) (w : World) (e : Thrown) :
  keyMissing (openaiApiKey p w) = false ->
  create w = inl e ->
  rewriteContentWithSEO p w
  = Rejected
      match e with
      | ErrorObject message =>
          if includes message (js "API key")
          then js "Chave da API OpenAI não configurada corretamente"
          else if includes message (js "quota")
          then js "Limite da API OpenAI excedido. Tente novamente mais tarde"
          else if includes message (js "rate limit")
          then js "Muitas requisições. Aguarde alguns minutos e tente novamente"
          else js "Erro no processamento do conteúdo: " ++ message
      | OtherValue => js "Erro no processamento do conteúdo: " ++ js "Erro desconhecido"
      end.
Proof.
  intros Hkey Hcreate.
  unfold rewriteContentWithSEO, attempt. rewrite Hkey, Hcreate. reflexivity.
Qed.

(** X16. A lookup of case studies that throws is not an error of the call: the
    call settles as it does with no search function, and as it does when
    the lookup finds nothing. *)
Theorem lookup_failure_swallowed (p : Params) (w : World) (e : Thrown) :
  rewriteContentWithSEO (withSearch p (Some (inl e))) w
  = rewriteContentWithSEO (withSearch p None) w
  /\ rewriteContentWithSEO (withSearch p (Some (inl e))) w
     = rewriteContentWithSEO (withSearch p (Some (inr []))) w.
Proof. split; reflexivity. Qed.

(** ** The domain of the internal links *)

(** [stripped s d]: [d] is [s] with every code unit of white space taken out
    and the others kept, in their order. *)
Inductive stripped : jsstring -> jsstring -> Prop :=
| stripped_nil : stripped [] []
| stripped_skip (c : codeunit) (s d : jsstring) :
    isWhiteSpace c = true -> stripped s d -> stripped (c :: s) d
| stripped_keep (c : codeunit) (s d : jsstring) :
    isWhiteSpace c = false -> stripped s d -> stripped (c :: s) (c :: d).

Lemma stripped_unique (s d d' : jsstring) : stripped s d -> stripped s d' -> d = d'.
Proof.
  intros H. revert d'. induction H as [| c s d Hc _ IH | c s d Hc _ IH]; intros d' H'.
  - now inversion H'.
  - inversion H'; subst; [now apply IH | congruence].
  - inversion H'; subst; [congruence | f_equal; now apply IH].
Qed.

Lemma stripped_filter (s : jsstring) :
  stripped s (filter (fun c => negb (isWhiteSpace c)) s).
Proof.
  induction s as [| c s IH]; cbn; [constructor |].
  destruct (isWhiteSpace c) eqn:Hc; cbn; now constructor.
Qed.

(** X17. With a company name (one that is not empty) the domain handed to
    the internal-link generator is the lower-cased name with its white space
    taken out, followed by ".com.br"; without one it is "exemplo.com.br".
    In both cases it has no white space and ends with ".com.br". *)
Theorem internalLinksDomain_shape (p : Params) :
  match companyName p with
  | Some (c :: name) =>
      exists d, stripped (toLowerCase (c :: name)) d
                /\ internalLinksDomain p = d ++ js ".com.br"
  | _ => internalLinksDomain p = js "exemplo.com.br"
  end
  /\ (exists name, internalLinksDomain p = name ++ js ".com.br")
  /\ Forall (fun c => isWhiteSpace c = false) (internalLinksDomain p)
  /\ (given (companyName p) = false -> internalLinksDomain p = js "exemplo.com.br").
Proof.
  assert (Hlit : forall s, forallb (fun c => negb (isWhiteSpace c)) s = true ->
                           Forall (fun c => isWhiteSpace c = false) s).
  { intros s Hs. rewrite forallb_forall in Hs. apply Forall_forall.
    intros c Hc. now apply negb_true_iff, Hs. }
  split.
  { unfold internalLinksDomain. destruct (companyName p) as [[| c name] |]; cbn;
      try reflexivity.
    eexists. split; [apply stripped_filter | reflexivity]. }
  unfold internalLinksDomain. destruct (given (companyName p)).
  - split; [eexists; reflexivity |]. split; [| discriminate].
    apply Forall_app. split.
    + apply Forall_forall. intros c Hc. apply filter_In in Hc as [_ Hc].
      now apply negb_true_iff.
    + apply Hlit. vm_compute. reflexivity.
  - split; [exists (js "exemplo"); vm_compute; reflexivity |].
    split; [apply Hlit; vm_compute; reflexivity | reflexivity].
Qed.

End Props.

(** ** The theorems at concrete calls *)

(** A reply with a trailing blank: two tokens, three pieces. *)
Lemma wordCount_against_tokens_witness :
  exists r,
    rewriteContentWithSEO (call (js "teste")) (answers (js "Teste teste ")) = Resolved r
    /\ wordCount r = 3%Z
    /\ exists text,
         rewrittenText (rewrittenContent r) = Some text
         /\ wordCount r
            = Z.of_nat
                (whitespaceTokens text
                 + (match text with
                    | [] => 1
                    | c :: _ => if isWhiteSpace c then 1 else 0
                    end)
                 + (if ends_ws false text then 1 else 0)).
Proof.
  eexists. split; [vm_compute; reflexivity |]. split; [reflexivity |].
  apply (@wordCount_against_tokens fragmentEngine (call (js "teste"))
           (answers (js "Teste teste "))).
  vm_compute. reflexivity.
Defined.

Lemma metric_ranges_witness :
  exists r,
    rewriteContentWithSEO (call (js "teste")) (answers (js "Teste teste ")) = Resolved r
    /\ (1 <= wordCount r)%Z
    /\ (10 <= seoScore r <= 100)%Z
    /\ (seoScore r mod 10 = 0)%Z
    /\ (readabilityScore r = js "Boa" <-> (500 < wordCount r)%Z)
    /\ (readabilityScore r = js "Regular" <-> (wordCount r <= 500)%Z).
Proof.
  eexists. split; [vm_compute; reflexivity |].
  apply (@metric_ranges fragmentEngine (call (js "teste")) (answers (js "Teste teste "))).
  vm_compute. reflexivity.
Defined.

(** A reply whose score is 0, whose [faq] is the empty string and whose
    [citations] are [null]: the result has the defaults. *)
Definition falsyReply : jsstring :=
  json_text "{'rewrittenContent':'Teste.','helpfulnessScore':0,'faq':'','citations':null}".

Lemma defaulted_fields_truthy_witness :
  exists r,
    rewriteContentWithSEO (call (js "teste")) (answers falsyReply) = Resolved r
    /\ helpfulnessScore r = JNumber 85
    /\ citations r = JArray []
    /\ truthy (helpfulnessScore r) = true /\ truthy (qualityScore r) = true
    /\ truthy (eatScore r) = true /\ truthy (structureScore r) = true
    /\ truthy (aiOptimizationScore r) = true
    /\ truthy (title (featuredImage r)) = true /\ truthy (altText (featuredImage r)) = true
    /\ truthy (keywords (featuredImage r)) = true
    /\ truthy (faq r) = true /\ truthy (caseStudies r) = true
    /\ truthy (richContent r) = true /\ truthy (citations r) = true
    /\ truthy (internalLinking r) = true /\ truthy (entities r) = true
    /\ truthy (schemaMarkup r) = true
    /\ metaDescription r <> [].
Proof.
  eexists. split; [vm_compute; reflexivity |].
  split; [reflexivity |]. split; [reflexivity |].
  apply (@defaulted_fields_truthy fragmentEngine (call (js "teste")) (answers falsyReply)).
  vm_compute. reflexivity.
Defined.

(** A reply with a description of 160 letters: the result has the first
    155 of them. *)
Definition longDescriptionReply : jsstring :=
  json_text "{'rewrittenContent':'Teste.','metaDescription':'" ++ repeat 98%N 160
  ++ json_text "'}".

Lemma metaDescription_source_witness :
  exists r,
    rewriteContentWithSEO (call (js "teste")) (answers longDescriptionReply) = Resolved r
    /\ metaDescription r = repeat 98%N 155.
Proof.
  eexists. split; [vm_compute; reflexivity |].
  rewrite (@metaDescription_source fragmentEngine (call (js "teste"))
             (answers longDescriptionReply) _ longDescriptionReply [] eq_refl).
  - vm_compute. reflexivity.
  - vm_compute. reflexivity.
Defined.

Lemma metaDescription_bound_witness :
  exists r,
    rewriteContentWithSEO (call (js "teste")) (answers longDescriptionReply) = Resolved r
    /\ (List.length (targetKeyword (call (js "teste"))) <= 127)%nat
    /\ (List.length (metaDescription r) <= 155)%nat.
Proof.
  eexists. split; [vm_compute; reflexivity |].
  assert (Hkeyword : (List.length (targetKeyword (call (js "teste"))) <= 127)%nat)
    by (vm_compute; lia).
  split; [exact Hkeyword |].
  apply (@metaDescription_bound fragmentEngine (call (js "teste"))
           (answers longDescriptionReply)); [vm_compute; reflexivity | exact Hkeyword].
Defined.

(** A reply with ten questions and four case studies: eight and three are
    kept. *)
Definition longListsReply : jsstring :=
  json_text "{'rewrittenContent':'Teste.','faq':[1,2,3,4,5,6,7,8,9,10],'caseStudies':[1,2,3,4]}".

Lemma faq_and_caseStudies_cut_witness :
  exists r,
    rewriteContentWithSEO (call (js "teste")) (answers longListsReply) = Resolved r
    /\ faq r = JArray (map JNumber [1; 2; 3; 4; 5; 6; 7; 8]%float)
    /\ caseStudies r = JArray (map JNumber [1; 2; 3]%float)
    /\ ((exists l, faq r = JArray l /\ (List.length l <= 8)%nat)
        \/ (exists s, faq r = JString s /\ (1 <= List.length s <= 8)%nat))
    /\ ((exists l, caseStudies r = JArray l
                   /\ ((List.length l <= 3)%nat
                       \/ l = realCaseStudies (call (js "teste"))))
        \/ (exists s, caseStudies r = JString s /\ (1 <= List.length s <= 3)%nat)).
Proof.
  eexists. split; [vm_compute; reflexivity |].
  split; [reflexivity |]. split; [reflexivity |].
  apply (@faq_and_caseStudies_cut fragmentEngine (call (js "teste")) (answers longListsReply)).
  vm_compute. reflexivity.
Defined.

(** The reply "null" is a JSON text, and the call is rejected. *)
Lemma json_reply_shape_witness :
  JSON_parse (js "null") = Some JNull
  /\ wellShaped JNull = false
  /\ ((exists r, rewriteContentWithSEO (call (js "teste")) (answers (js "null")) = Resolved r)
      <-> wellShaped JNull = true
          /\ exists occurrences,
               regexpMatches (toLowerCase (js "teste")) (toLowerCase (rewrittenTextOf JNull))
               = inr occurrences).
Proof.
  split; [vm_compute; reflexivity |]. split; [reflexivity |].
  apply (@json_reply_shape fragmentEngine (call (js "teste")) (answers (js "null"))
           110%N (js "ull") [] JNull).
  - vm_compute. reflexivity.
  - vm_compute. reflexivity.
  - vm_compute. reflexivity.
Defined.

(** The endpoint reports an exhausted quota. *)
Lemma endpoint_failure_surfaced_witness :
  rewriteContentWithSEO (call (js "teste"))
    {| OPENAI_API_KEY := None;
       create := inl (ErrorObject (js "You exceeded your current quota")) |}
  = Rejected (js "Limite da API OpenAI excedido. Tente novamente mais tarde").
Proof.
  rewrite (@endpoint_failure_surfaced fragmentEngine (call (js "teste"))
             {| OPENAI_API_KEY := None;
                create := inl (ErrorObject (js "You exceeded your current quota")) |}
             (ErrorObject (js "You exceeded your current quota"))).
  - vm_compute. reflexivity.
  - vm_compute. reflexivity.
  - reflexivity.
Defined.

(** A call with a search function that finds two case studies. *)
Definition foundStudies : list JSValue := [JString (js "Caso A"); JString (js "Caso B")].

Lemma caseStudies_source_witness :
  exists r,
    rewriteContentWithSEO (withSearch (call (js "teste")) (Some (inr foundStudies)))
      (answers (js "Texto simples sobre teste")) = Resolved r
    /\ caseStudies r = JArray foundStudies.
Proof.
  eexists. split; [vm_compute; reflexivity |].
  rewrite (@caseStudies_source fragmentEngine
             (withSearch (call (js "teste")) (Some (inr foundStudies)))
             (answers (js "Texto simples sobre teste")) _
             (js "Texto simples sobre teste") [] eq_refl).
  - vm_compute. reflexivity.
  - vm_compute. reflexivity.
Defined.

(** The company "Acme Corp": the domain is "acmecorp.com.br". *)
Definition acmeCall : Params :=
  {| originalContent := js "Teste.";
     targetKeyword := js "teste";
     keywordLink := None;
     companyName := Some (js "Acme Corp");
     authorName := None;
     authorDescription := None;
     apiKey := Some (js "sk-test");
     webSearchFunction := None |}.

Lemma internalLinksDomain_shape_witness :
  internalLinksDomain acmeCall = js "acmecorp.com.br"
  /\ exists d, stripped (toLowerCase (js "Acme Corp")) d
               /\ internalLinksDomain acmeCall = d ++ js ".com.br".
Proof.
  split; [vm_compute; reflexivity |].
  destruct (@internalLinksDomain_shape fragmentEngine acmeCall) as [(d & Hd & Hdomain) _].
  exists d. split; [exact Hd | exact Hdomain].
Defined.

End OpenAIMoreProps.
